(** * Binance Futures testnet bot: signed request executor, validators and
      order dispatch

    A shallow embedding of [bot/client.py], [bot/validators.py],
    [bot/orders.py] and [bot/logging_config.py], of the commands
    [place-order] and [order-status] of [cli.py] and of the views
    [api_balance] and [api_place_order] of [app.py], followed by the
    properties of the specification that are settled on it and by further
    properties of the code.

    Conventions of the embedding.
    - A Python [str] is a [string]: the sequence of its UTF-8 bytes.
      Percent-encoding and HMAC work on these bytes and are exact for every
      text.  [upper], [strip], [repr] and the grammar of [float] are Python's
      on ASCII text; bytes above 127 are left alone by them.  The general
      statements below use these functions through facts that Python's
      functions share on every text: what they return is named by the
      function, and [upper] and [strip] leave a text of the letters A to Z
      as it is.
    - A Python [float] is a [spec_float] of binary64 (53 bits of mantissa,
      largest exponent 1024), with the rounding functions of the standard
      library's [SpecFloat]; [float], [str] and the comparisons are executable.
    - A Python [dict] is an association list in insertion order: assignment
      to a present key keeps its position, assignment to a new key appends.
    - A raised exception is the [Err] branch of [result]; exceptions carry
      the message that the repository gives them, and the [ValueError] of
      [float] its own; the other library exceptions carry none.
    - Calls to the logger are left out: they do not change any value that
      the functions return or transmit. *)

From Stdlib Require Import ZArith Ascii String List Bool DecimalString SpecFloat.
From stdpp Require Import base option list.

Local Open Scope string_scope.
Local Open Scope Z_scope.

(* ===================================================================== *)
(** * Python strings *)
(* ===================================================================== *)

Module PyStr.

Definition of_list (l : list ascii) : string := string_of_list_ascii l.
Definition to_list (s : string) : list ascii := list_ascii_of_string s.

Definition code (c : ascii) : Z := Z.of_nat (nat_of_ascii c).
Definition chr (z : Z) : ascii := ascii_of_nat (Z.to_nat z).

Definition is_digit (c : ascii) : bool := (48 <=? code c) && (code c <=? 57).
Definition is_lower (c : ascii) : bool := (97 <=? code c) && (code c <=? 122).
Definition is_upper (c : ascii) : bool := (65 <=? code c) && (code c <=? 90).
Definition is_alpha (c : ascii) : bool := is_lower c || is_upper c.

(** [str.isspace] on ASCII: TAB, LF, VT, FF, CR, FS, GS, RS, US, SPACE. *)
Definition is_space (c : ascii) : bool :=
  ((9 <=? code c) && (code c <=? 13)) || ((28 <=? code c) && (code c <=? 32)).

Definition upper_char (c : ascii) : ascii := if is_lower c then chr (code c - 32) else c.
Definition lower_char (c : ascii) : ascii := if is_upper c then chr (code c + 32) else c.

(** [s.upper()] *)
Fixpoint upper (s : string) : string :=
  match s with
  | EmptyString => EmptyString
  | String c r => String (upper_char c) (upper r)
  end.

Fixpoint lower (s : string) : string :=
  match s with
  | EmptyString => EmptyString
  | String c r => String (lower_char c) (lower r)
  end.

Fixpoint lstrip_list (l : list ascii) : list ascii :=
  match l with
  | c :: r => if is_space c then lstrip_list r else l
  | [] => []
  end.

(** [s.strip()] *)
Definition strip (s : string) : string :=
  of_list (rev (lstrip_list (rev (lstrip_list (to_list s))))).

(** [str(z)] for a Python [int]. *)
Definition of_Z (z : Z) : string := NilZero.string_of_int (Z.to_int z).

(** [sep.join(l)] *)
Fixpoint join (sep : string) (l : list string) : string :=
  match l with
  | [] => ""
  | [s] => s
  | s :: r => s ++ sep ++ join sep r
  end.

(** [c * n] for a one-character string. *)
Definition replicate (n : nat) (c : ascii) : string := of_list (List.repeat c n).

Fixpoint mem (x : string) (l : list string) : bool :=
  match l with
  | [] => false
  | y :: r => String.eqb x y || mem x r
  end.

(** The double quote, written by its code. *)
Definition dquote : string := String (chr 34) "".
Definition squote : string := String (chr 39) "".
Definition newline : string := String (chr 10) "".

End PyStr.

(* ===================================================================== *)
(** * Python floats (IEEE 754 binary64) *)
(* ===================================================================== *)

Module PyFloat.

Import PyStr.

Definition prec : Z := 53.
Definition emax : Z := 1024.

Definition nan : spec_float := S754_nan.
Definition inf (neg : bool) : spec_float := S754_infinity neg.

(** The float nearest to the integer [z] (ties to even); an infinity when
    [z] is beyond the largest float. *)
Definition round_Z (z : Z) : spec_float := binary_normalize prec emax z 0 false.

(** The float nearest to [m * 10 ^ e], with the sign [neg], for [0 <= m]:
    the correctly rounded value that [float] gives to a decimal literal. *)
Definition of_decimal (neg : bool) (m e : Z) : spec_float :=
  if m =? 0 then S754_zero neg
  else if 0 <=? e then
    binary_normalize prec emax (cond_Zopp neg (m * 10 ^ e)) 0 neg
  else
    let '(q, e', l) := SFdiv_core_binary prec emax m 0 (10 ^ (- e)) 0 in
    binary_round_aux prec emax neg q e' l.

(** Comparisons of two floats; every comparison with NaN is false. *)
Definition ltb (x y : spec_float) : bool := SFltb x y.
Definition leb (x y : spec_float) : bool := SFleb x y.
Definition gtb (x y : spec_float) : bool := SFltb y x.
Definition eqb (x y : spec_float) : bool := SFeqb x y.

Definition is_nan (x : spec_float) : bool :=
  match x with S754_nan => true | _ => false end.

(** Comparison of a float with a Python [int] that is exactly representable
    (the code compares with the literals [0] and [1_000_000] only). *)
Definition le_int (x : spec_float) (z : Z) : bool := leb x (round_Z z).
Definition gt_int (x : spec_float) (z : Z) : bool := gtb x (round_Z z).

(** ** [float(s)] for a string *)

(** The white space that [float] strips from ASCII text. *)
Definition is_float_space (c : ascii) : bool :=
  ((9 <=? code c) && (code c <=? 13)) || (code c =? 32).

Fixpoint lstrip_space (l : list ascii) : list ascii :=
  match l with
  | c :: r => if is_float_space c then lstrip_space r else l
  | [] => []
  end.

Definition strip_space (l : list ascii) : list ascii :=
  rev (lstrip_space (rev (lstrip_space l))).

Definition is_underscore (c : ascii) : bool := code c =? 95.

(** Underscores are allowed between two digits only; they are removed. *)
Fixpoint drop_underscores (prev : ascii) (l : list ascii) : option (list ascii) :=
  match l with
  | [] => if is_underscore prev then None else Some []
  | c :: r =>
      if is_underscore c then
        if is_digit prev then drop_underscores c r else None
      else if is_underscore prev && negb (is_digit c) then None
      else option_map (cons c) (drop_underscores c r)
  end.

Definition take_sign (l : list ascii) : bool * list ascii :=
  match l with
  | c :: r => if code c =? 45 then (true, r) else if code c =? 43 then (false, r) else (false, l)
  | [] => (false, l)
  end.

Fixpoint span_digits (l : list ascii) : list ascii * list ascii :=
  match l with
  | c :: r => if is_digit c then let '(d, t) := span_digits r in (c :: d, t) else ([], l)
  | [] => ([], [])
  end.

Definition digits_value (l : list ascii) : Z :=
  fold_left (fun acc c => 10 * acc + (code c - 48)) l 0.

Definition is_nil {A} (l : list A) : bool := match l with [] => true | _ => false end.

(** [digits [. digits] [(e|E) [sign] digits]] with at least one digit before
    the exponent; the result is the pair (mantissa, decimal exponent). *)
Definition parse_decimal (l : list ascii) : option (Z * Z) :=
  let '(ip, r1) := span_digits l in
  let '(fp, r2) :=
    match r1 with
    | c :: r => if code c =? 46 then span_digits r else ([], r1)
    | [] => ([], r1)
    end in
  if is_nil ip && is_nil fp then None
  else
    let m := digits_value (ip ++ fp) in
    let shift := Z.of_nat (List.length fp) in
    match r2 with
    | [] => Some (m, - shift)
    | c :: r3 =>
        if (code c =? 101) || (code c =? 69) then
          let '(eneg, r4) := take_sign r3 in
          let '(ed, r5) := span_digits r4 in
          if is_nil ed || negb (is_nil r5) then None
          else Some (m, cond_Zopp eneg (digits_value ed) - shift)
        else None
    end.

Definition parse_unsigned (neg : bool) (l : list ascii) : option spec_float :=
  let w := lower (of_list l) in
  if String.eqb w "inf" || String.eqb w "infinity" then Some (inf neg)
  else if String.eqb w "nan" then Some nan
  else
    match parse_decimal l with
    | Some (m, e) => Some (of_decimal neg m e)
    | None => None
    end.

(** [float(s)]: [None] stands for [ValueError]. *)
Definition of_string (s : string) : option spec_float :=
  match drop_underscores zero (strip_space (to_list s)) with
  | Some l => let '(neg, r) := take_sign l in parse_unsigned neg r
  | None => None
  end.

(** ** [str(x)] and [repr(x)] for a float

    Python prints the shortest decimal that [float] reads back as [x], the
    nearest to [x] among the shortest, in fixed notation when the decimal
    point position [decpt] satisfies [-4 < decpt <= 16] and in exponent
    notation otherwise. *)

(** [x = num / den] for the positive finite float of mantissa [m] and
    exponent [e]. *)
Definition ratio (m : positive) (e : Z) : Z * Z :=
  if 0 <=? e then (Zpos m * 2 ^ e, 1) else (Zpos m, 2 ^ (- e)).

(** [num / den < 10 ^ k] *)
Definition below_pow10 (num den k : Z) : bool :=
  if 0 <=? k then num <? den * 10 ^ k else num * 10 ^ (- k) <? den.

Fixpoint find_decpt (fuel : nat) (num den k : Z) : Z :=
  match fuel with
  | O => k
  | S f => if below_pow10 num den k then k else find_decpt f num den (k + 1)
  end.

(** The [k] with [10 ^ (k - 1) <= x < 10 ^ k], searched upwards from an
    underestimate given by the binary length of [x]. *)
Definition decpt_of (m : positive) (e : Z) : Z :=
  let '(num, den) := ratio m e in
  let bits := Zpos (digits2_pos m) + e in
  find_decpt 8 num den ((bits - 1) * 30103 / 100000 - 1).

(** The two decimals of [n] digits around [x], [lo * 10 ^ s <= x] and
    [(lo + 1) * 10 ^ s], nearest first. *)
Definition candidates (m : positive) (e : Z) (s : Z) : list Z :=
  let '(num, den) := ratio m e in
  let '(a, b) := if 0 <=? s then (num, den * 10 ^ s) else (num * 10 ^ (- s), den) in
  let lo := a / b in
  let r := a mod b in
  match 2 * r ?= b with
  | Lt => [lo; lo + 1]
  | Gt => [lo + 1; lo]
  | Eq => if Z.even lo then [lo; lo + 1] else [lo + 1; lo]
  end.

Definition reads_back (x : spec_float) (s : Z) (d : Z) : bool :=
  eqb (of_decimal false d s) x.

Fixpoint shortest (fuel : nat) (x : spec_float) (m : positive) (e k n : Z) : Z * Z :=
  let s := k - n in
  let c := candidates m e s in
  match fuel with
  | O => (hd 0 c, s)
  | S f =>
      match List.filter (reads_back x s) c with
      | d :: _ => (d, s)
      | [] => shortest f x m e k (n + 1)
      end
  end.

Fixpoint strip_zeros (fuel : nat) (d s : Z) : Z * Z :=
  match fuel with
  | O => (d, s)
  | S f => if (d mod 10 =? 0) && (0 <? d) then strip_zeros f (d / 10) (s + 1) else (d, s)
  end.

(** The digits of [x] and the position of the decimal point:
    [x = 0.d1 d2 ... dn * 10 ^ decpt]. *)
Definition digits_of (m : positive) (e : Z) : string * Z :=
  let x := S754_finite false m e in
  let '(d, s) := shortest 16 x m e (decpt_of m e) 1 in
  let '(d, s) := strip_zeros 20 d s in
  let ds := PyStr.of_Z d in
  (ds, Z.of_nat (String.length ds) + s).

Definition zeros (n : Z) : string := PyStr.replicate (Z.to_nat n) "0"%char.

Definition format_repr (ds : string) (decpt : Z) : string :=
  let n := Z.of_nat (String.length ds) in
  if (decpt <=? -4) || (16 <? decpt) then
    let ex := decpt - 1 in
    let mant :=
      match ds with
      | String c EmptyString => ds
      | String c r => String c ("." ++ r)
      | EmptyString => ds
      end in
    let ea := PyStr.of_Z (Z.abs ex) in
    mant ++ "e" ++ (if ex <? 0 then "-" else "+")
         ++ (if Z.abs ex <? 10 then "0" ++ ea else ea)
  else if decpt <=? 0 then "0." ++ zeros (- decpt) ++ ds
  else if decpt <? n then
    substring 0 (Z.to_nat decpt) ds ++ "." ++ substring (Z.to_nat decpt) (Z.to_nat (n - decpt)) ds
  else ds ++ zeros (decpt - n) ++ ".0".

(** [str(x)], which is [repr(x)]. *)
Definition to_string (x : spec_float) : string :=
  match x with
  | S754_nan => "nan"
  | S754_infinity neg => if neg then "-inf" else "inf"
  | S754_zero neg => if neg then "-0.0" else "0.0"
  | S754_finite neg m e =>
      let '(ds, decpt) := digits_of m e in
      (if neg then "-" else "") ++ format_repr ds decpt
  end.

(** [float(z)] for a Python [int]: [None] stands for [OverflowError]. *)
Definition of_int (z : Z) : option spec_float :=
  match round_Z z with
  | S754_infinity _ => None
  | x => Some x
  end.

(** True division [x / y] of two floats with [y] non-zero. *)
Definition div (x y : spec_float) : spec_float := SFdiv prec emax x y.

(** True division [a / b] of two Python [int]s with [b] positive: the
    quotient correctly rounded, [None] for [OverflowError]. *)
Definition int_truediv (a b : Z) : option spec_float :=
  if a =? 0 then Some (S754_zero false)
  else
    let '(q, e', l) := SFdiv_core_binary prec emax (Z.abs a) 0 b 0 in
    match binary_round_aux prec emax (a <? 0) q e' l with
    | S754_infinity _ => None
    | x => Some x
    end.

End PyFloat.

(* ===================================================================== *)
(** * [hashlib.sha256] and [hmac] *)
(* ===================================================================== *)

Module SHA256.

(** Words are integers in [0, 2^32); bytes are integers in [0, 256). *)
Definition w32 (x : Z) : Z := x mod 2 ^ 32.
Definition add32 (x y : Z) : Z := w32 (x + y).
Definition rotr (n x : Z) : Z := w32 (Z.lor (Z.shiftr x n) (Z.shiftl x (32 - n))).
Definition shr (n x : Z) : Z := Z.shiftr x n.
Definition not32 (x : Z) : Z := 2 ^ 32 - 1 - x.

Definition Ch (x y z : Z) : Z := Z.lxor (Z.land x y) (Z.land (not32 x) z).
Definition Maj (x y z : Z) : Z := Z.lxor (Z.lxor (Z.land x y) (Z.land x z)) (Z.land y z).
Definition Sigma0 (x : Z) : Z := Z.lxor (Z.lxor (rotr 2 x) (rotr 13 x)) (rotr 22 x).
Definition Sigma1 (x : Z) : Z := Z.lxor (Z.lxor (rotr 6 x) (rotr 11 x)) (rotr 25 x).
Definition sigma0 (x : Z) : Z := Z.lxor (Z.lxor (rotr 7 x) (rotr 18 x)) (shr 3 x).
Definition sigma1 (x : Z) : Z := Z.lxor (Z.lxor (rotr 17 x) (rotr 19 x)) (shr 10 x).

Definition K : list Z :=
  [1116352408; 1899447441; 3049323471; 3921009573; 961987163; 1508970993;
   2453635748; 2870763221; 3624381080; 310598401; 607225278; 1426881987;
   1925078388; 2162078206; 2614888103; 3248222580; 3835390401; 4022224774;
   264347078; 604807628; 770255983; 1249150122; 1555081692; 1996064986;
   2554220882; 2821834349; 2952996808; 3210313671; 3336571891; 3584528711;
   113926993; 338241895; 666307205; 773529912; 1294757372; 1396182291;
   1695183700; 1986661051; 2177026350; 2456956037; 2730485921; 2820302411;
   3259730800; 3345764771; 3516065817; 3600352804; 4094571909; 275423344;
   430227734; 506948616; 659060556; 883997877; 958139571; 1322822218;
   1537002063; 1747873779; 1955562222; 2024104815; 2227730452; 2361852424;
   2428436474; 2756734187; 3204031479; 3329325298].

Definition H0 : list Z :=
  [1779033703; 3144134277; 1013904242; 2773480762;
   1359893119; 2600822924; 528734635; 1541459225].

(** The message followed by the byte 128, zeros up to 56 modulo 64, and the
    bit length on eight bytes, most significant first. *)
Definition be_bytes (n : nat) (x : Z) : list Z :=
  List.map (fun i => Z.shiftr x (8 * Z.of_nat i) mod 256) (rev (seq 0 n)).

Definition pad (msg : list Z) : list Z :=
  let len := Z.of_nat (List.length msg) in
  let k := (55 - len) mod 64 in
  (msg ++ [128] ++ List.repeat 0 (Z.to_nat k) ++ be_bytes 8 (8 * len))%list.

Definition be_word (b : list Z) : Z :=
  fold_left (fun acc x => acc * 256 + x) b 0.

Fixpoint words (fuel : nat) (b : list Z) : list Z :=
  match fuel, b with
  | S f, _ :: _ => be_word (firstn 4 b) :: words f (skipn 4 b)
  | _, _ => []
  end.

Fixpoint blocks (fuel : nat) (w : list Z) : list (list Z) :=
  match fuel, w with
  | S f, _ :: _ => firstn 16 w :: blocks f (skipn 16 w)
  | _, _ => []
  end.

(** The message schedule, most recent word first. *)
Fixpoint schedule (n : nat) (rw : list Z) : list Z :=
  match n with
  | O => rw
  | S n' =>
      let w := add32 (add32 (sigma1 (nth 1 rw 0)) (nth 6 rw 0))
                     (add32 (sigma0 (nth 14 rw 0)) (nth 15 rw 0)) in
      schedule n' (w :: rw)
  end.

Definition round (st : list Z) (kw : Z * Z) : list Z :=
  match st with
  | [a; b; c; d; e; f; g; h] =>
      let t1 := add32 (add32 (add32 h (Sigma1 e)) (add32 (Ch e f g) (fst kw))) (snd kw) in
      let t2 := add32 (Sigma0 a) (Maj a b c) in
      [add32 t1 t2; a; b; c; add32 d t1; e; f; g]
  | _ => st
  end.

Definition compress (h : list Z) (block : list Z) : list Z :=
  let w := rev (schedule 48 (rev block)) in
  let st := fold_left round (combine K w) h in
  List.map (fun p => add32 (fst p) (snd p)) (combine h st).

Definition digest (msg : list Z) : list Z :=
  let p := pad msg in
  let ws := words (List.length p) p in
  let hs := fold_left compress (blocks (List.length ws) ws) H0 in
  concat (List.map (be_bytes 4) hs).

End SHA256.

Module HMAC.

Definition bytes_of_string (s : string) : list Z :=
  List.map PyStr.code (PyStr.to_list s).

Definition hex_digit (z : Z) : ascii :=
  if z <? 10 then PyStr.chr (48 + z) else PyStr.chr (87 + z).

Definition hex_of_bytes (b : list Z) : string :=
  PyStr.of_list (concat (List.map (fun x => [hex_digit (x / 16); hex_digit (x mod 16)]) b)).

Definition block_size : nat := 64.

(** [hmac.new(key, msg, hashlib.sha256).digest()] *)
Definition hmac_sha256 (key msg : list Z) : list Z :=
  let k0 := if (block_size <? List.length key)%nat then SHA256.digest key else key in
  let k := (k0 ++ List.repeat 0 (block_size - List.length k0))%list in
  let ipad := List.map (Z.lxor 54) k in
  let opad := List.map (Z.lxor 92) k in
  SHA256.digest (opad ++ SHA256.digest (ipad ++ msg))%list.

(** [hmac.new(key.encode(), msg.encode(), hashlib.sha256).hexdigest()] *)
Definition hexdigest (key msg : string) : string :=
  hex_of_bytes (hmac_sha256 (bytes_of_string key) (bytes_of_string msg)).

Definition sha256_hex (msg : string) : string :=
  hex_of_bytes (SHA256.digest (bytes_of_string msg)).

End HMAC.

(* ===================================================================== *)
(** * Python values, exceptions and dictionaries *)
(* ===================================================================== *)

(** The values that parameters and decoded JSON bodies are made of. *)
#[local] Unset Elimination Schemes.
Inductive value : Type :=
| VNone
| VBool (b : bool)
| VInt (z : Z)
| VFloat (x : spec_float)
| VStr (s : string)
| VList (l : list value)
| VDict (d : list (string * value)).
#[local] Set Elimination Schemes.

Abbreviation dict := (list (string * value)).

(** What [requests] hands back: the status, the raw text, and the outcome of
    [response.json()], [None] when decoding raises. *)
Record Response : Type := mkResponse {
  status_code : Z;
  text : string;
  json : option value
}.

Inductive exn : Type :=
| BadParameter (message param_hint : string)      (* click.BadParameter *)
| ValueError (message : string)
| JSONDecodeError                                 (* a ValueError *)
| TypeError
| AttributeError
| OverflowError
| OSError
| HTTPError (message : string) (response : Response)  (* requests.HTTPError *)
| TransportError.                                 (* any other requests.RequestException *)

Inductive result (A : Type) : Type :=
| Ok (a : A)
| Err (e : exn).
Arguments Ok {A} a.
Arguments Err {A} e.

(** The classes an [except] clause of the repository names. *)
Definition is_ValueError (e : exn) : bool :=
  match e with ValueError _ | JSONDecodeError => true | _ => false end.
Definition is_TypeError (e : exn) : bool :=
  match e with TypeError => true | _ => false end.
Definition is_OverflowError (e : exn) : bool :=
  match e with OverflowError => true | _ => false end.
(** [requests.RequestException] derives from [IOError], that is [OSError]. *)
Definition is_OSError (e : exn) : bool :=
  match e with OSError | HTTPError _ _ | TransportError => true | _ => false end.
Definition is_BadParameter (e : exn) : bool :=
  match e with BadParameter _ _ => true | _ => false end.

Module PyDict.

(** [d[k]] when present. *)
Fixpoint get (d : dict) (k : string) : option value :=
  match d with
  | [] => None
  | (k', v) :: r => if String.eqb k' k then Some v else get r k
  end.

(** [d[k] = v]: in place when [k] is present, appended otherwise. *)
Fixpoint set (d : dict) (k : string) (v : value) : dict :=
  match d with
  | [] => [(k, v)]
  | (k', v') :: r => if String.eqb k' k then (k', v) :: r else (k', v') :: set r k v
  end.

(** [k in d] *)
Definition has (d : dict) (k : string) : bool :=
  match get d k with Some _ => true | None => false end.


Definition keys (d : dict) : list string := List.map fst d.

End PyDict.

Module Py.

Import PyStr.

Definition hex2 (z : Z) : string :=
  String (HMAC.hex_digit (z / 16)) (String (HMAC.hex_digit (z mod 16)) "").

Definition contains_char (c : ascii) (s : string) : bool :=
  existsb (Ascii.eqb c) (to_list s).

(** [repr(s)] for a string: single quotes unless the text has a single
    quote and no double quote; backslash, the quote, TAB, LF and CR are
    escaped, other control characters are written [\xNN]. *)
Definition repr_char (q : ascii) (c : ascii) : string :=
  let n := code c in
  if n =? 92 then "\\"
  else if Ascii.eqb c q then String "\" (String q "")
  else if n =? 9 then "\t"
  else if n =? 10 then "\n"
  else if n =? 13 then "\r"
  else if (n <? 32) || (n =? 127) then "\x" ++ hex2 n
  else String c "".

Definition repr_str (s : string) : string :=
  let q := if contains_char (chr 39) s && negb (contains_char (chr 34) s)
           then chr 34 else chr 39 in
  String q (String.concat "" (List.map (repr_char q) (to_list s))) ++ String q "".

(** [repr(v)] *)
Fixpoint repr (v : value) : string :=
  match v with
  | VNone => "None"
  | VBool b => if b then "True" else "False"
  | VInt z => of_Z z
  | VFloat x => PyFloat.to_string x
  | VStr s => repr_str s
  | VList l => "[" ++ join ", " (List.map repr l) ++ "]"
  | VDict d =>
      "{" ++ join ", " (List.map (fun kv => repr_str (fst kv) ++ ": " ++ repr (snd kv)) d) ++ "}"
  end.

(** [str(v)], also what an f-string prints. *)
Definition str (v : value) : string :=
  match v with
  | VStr s => s
  | _ => repr v
  end.

(** [o.get(k, default)]: only a [dict] has the method. *)
Definition get (o : value) (k : string) (default : value) : result value :=
  match o with
  | VDict d => Ok (match PyDict.get d k with Some v => v | None => default end)
  | _ => Err AttributeError
  end.

(** [float(v)] *)
Definition float (v : value) : result spec_float :=
  match v with
  | VStr s =>
      match PyFloat.of_string s with
      | Some x => Ok x
      | None => Err (ValueError ("could not convert string to float: " ++ repr_str s))
      end
  | VInt z =>
      match PyFloat.of_int z with
      | Some x => Ok x
      | None => Err OverflowError
      end
  | VBool b => Ok (PyFloat.round_Z (if b then 1 else 0))
  | VFloat x => Ok x
  | VNone | VList _ | VDict _ => Err TypeError
  end.

(** [v / n] for a positive [int] literal [n]. *)
Definition truediv_int (v : value) (n : Z) : result spec_float :=
  let int_div a :=
    match PyFloat.int_truediv a n with
    | Some x => Ok x
    | None => Err OverflowError
    end in
  match v with
  | VInt z => int_div z
  | VBool b => int_div (if b then 1 else 0)
  | VFloat x => Ok (PyFloat.div x (PyFloat.round_Z n))
  | VNone | VStr _ | VList _ | VDict _ => Err TypeError
  end.

(** [for x in v]: the elements of a list, the keys of a dict, the characters
    of a string. *)
Definition iter (v : value) : result (list value) :=
  match v with
  | VList l => Ok l
  | VDict d => Ok (List.map (fun kv => VStr (fst kv)) d)
  | VStr s => Ok (List.map (fun c => VStr (String c "")) (to_list s))
  | VNone | VBool _ | VInt _ | VFloat _ => Err TypeError
  end.

(** [v == s] for a string [s]. *)
Definition eq_str (v : value) (s : string) : bool :=
  match v with
  | VStr t => String.eqb t s
  | _ => false
  end.

(** Truth value of [v], as [or] and [not] test it. *)
Definition truthy (v : value) : bool :=
  match v with
  | VNone => false
  | VBool b => b
  | VInt z => negb (z =? 0)
  | VFloat x => negb (PyFloat.eqb x (S754_zero false))
  | VStr s => negb (String.eqb s "")
  | VList l => negb (PyFloat.is_nil l)
  | VDict d => negb (PyFloat.is_nil d)
  end.

End Py.

(* ===================================================================== *)
(** * [urllib.parse.urlencode] *)
(* ===================================================================== *)

Module Url.

Import PyStr.

(** Letters, digits and [_ . - ~] are never quoted. *)
Definition always_safe (c : ascii) : bool :=
  is_alpha c || is_digit c
  || (code c =? 95) || (code c =? 46) || (code c =? 45) || (code c =? 126).

Definition upper_hex (z : Z) : ascii :=
  if z <? 10 then chr (48 + z) else chr (55 + z).

(** [quote_plus]: a space becomes [+], every other unsafe byte [%XX]. *)
Definition quote_char (c : ascii) : string :=
  if always_safe c then String c ""
  else if code c =? 32 then "+"
  else String "%" (String (upper_hex (code c / 16)) (String (upper_hex (code c mod 16)) "")).

Definition quote_plus (s : string) : string :=
  String.concat "" (List.map quote_char (to_list s)).

(** [urlencode(d)]: [key=value] pairs in the order of the dict, joined by [&]. *)
Definition urlencode (d : dict) : string :=
  join "&" (List.map (fun kv => quote_plus (fst kv) ++ "=" ++ quote_plus (Py.str (snd kv))) d).

End Url.

(* ===================================================================== *)
(** * The world a call runs in *)
(* ===================================================================== *)

Inductive http_method : Type := GET | POST | DELETE.

(** One call of [session.get], [session.post] or [session.delete]: the
    dictionary is the one passed as [params=] (GET, DELETE) or [data=]
    (POST), as it stands at the moment of the call. *)
Record Request : Type := mkRequest {
  req_method : http_method;
  req_url : string;
  req_params : dict;
  req_timeout : Z
}.

(** Dictionaries live in a store and are passed by reference, so that a
    mutation by the callee is seen by the caller. *)
Definition ref : Type := nat.

Record World : Type := mkWorld {
  heap : list dict;     (* the dictionaries, in allocation order *)
  clock_ms : Z;         (* what [int(time.time() * 1000)] evaluates to *)
  wire : list Request   (* the requests handed to the session, oldest first *)
}.

(** A computation reads and changes the world and returns or raises; the
    changes made before a [raise] stay. *)
Definition M (A : Type) : Type := World -> result A * World.

#[global] Instance result_ret : MRet result := fun A a => Ok a.
#[global] Instance result_bind : MBind result := fun A B f r =>
  match r with
  | Ok a => f a
  | Err e => Err e
  end.

#[global] Instance result_fmap : FMap result := fun A B f r =>
  match r with
  | Ok a => Ok (f a)
  | Err e => Err e
  end.

#[global] Instance M_ret : MRet M := fun A a w => (Ok a, w).
#[global] Instance M_bind : MBind M := fun A B f c w =>
  match c w with
  | (Ok a, w') => f a w'
  | (Err e, w') => (Err e, w')
  end.

(** [try: body except <classes>: handler] *)
Definition try_except {A} (body : result A) (caught : exn -> bool) (handler : result A)
  : result A :=
  match body with
  | Err e => if caught e then handler else Err e
  | Ok a => Ok a
  end.

(** [response.json()] *)
Definition response_json (response : Response) : result value :=
  match json response with
  | Some body => Ok body
  | None => Err JSONDecodeError
  end.

Definition raise {A} (e : exn) : M A := fun w => (Err e, w).
Definition lift {A} (r : result A) : M A := fun w => (r, w).

Definition set_heap (h : list dict) (w : World) : World :=
  mkWorld h (clock_ms w) (wire w).

(** A fresh dictionary with the entries [d]. *)
Definition alloc (d : dict) : M ref :=
  fun w => (Ok (List.length (heap w)), set_heap (heap w ++ [d]) w).

(** The entries of the dictionary [p]. *)
Definition deref (w : World) (p : ref) : dict := default [] (heap w !! p).
Definition load (p : ref) : M dict := fun w => (Ok (deref w p), w).

(** [p[k] = v] *)
Definition setitem (p : ref) (k : string) (v : value) : M unit :=
  fun w => (Ok tt, set_heap (<[p := PyDict.set (deref w p) k v]> (heap w)) w).

(** [int(time.time() * 1000)] *)
Definition now_ms : M Z := fun w => (Ok (clock_ms w), w).

(* ===================================================================== *)
(** * bot/client.py *)
(* ===================================================================== *)

(** The client after [__init__]: the credentials, the base URL and the
    session, which answers a request with a response or raises a transport
    error. *)
Record BinanceFuturesClient : Type := mkClient {
  api_key : string;
  api_secret : string;
  base_url : string;
  session : Request -> result Response
}.

Definition BASE_URL : string := "https://testnet.binancefuture.com".

Section Client.

Variable self : BinanceFuturesClient.

(** [self.session.<method>(url, params, timeout=10)] *)
Definition send (m : http_method) (url : string) (p : ref) : M Response :=
  fun w =>
    let r := mkRequest m url (deref w p) 10 in
    (session self r, mkWorld (heap w) (clock_ms w) (wire w ++ [r])).

Definition _mask_params (params : dict) : dict :=
  if PyDict.has params "signature" then PyDict.set params "signature" (VStr "***")
  else params.

Definition _sign (params : ref) : M ref :=
  ts ← now_ms;
  setitem params "timestamp" (VInt ts);;
  d ← load params;
  let query_string := Url.urlencode d in
  let signature := HMAC.hexdigest (api_secret self) query_string in
  setitem params "signature" (VStr signature);;
  mret params.

Definition _handle_response (response : Response) : result value :=
  if negb (status_code response =? 200) then
    '(error_code, error_msg) ←
      try_except
        (error_body ← response_json response;
         error_code ← Py.get error_body "code" (VStr "N/A");
         error_msg ← Py.get error_body "msg" (VStr (text response));
         mret (error_code, error_msg))
        is_ValueError
        (mret (VStr "N/A", VStr (text response)));
    Err (HTTPError ("Binance API Error " ++ PyStr.of_Z (status_code response) ++ ": "
                      ++ Py.str error_code ++ " — " ++ Py.str error_msg) response)
  else response_json response.

(** [get], [post] and [delete]: [params] is [None] or the caller's
    dictionary; the defaults of [signed] are written at the call sites. *)
Definition get (endpoint : string) (params : option ref) (signed : bool) : M value :=
  params ← match params with
           | None => alloc []
           | Some p => mret p
           end;
  params ← (if signed then _sign params else mret params);
  let url := base_url self ++ endpoint in
  response ← send GET url params;
  lift (_handle_response response).

Definition post (endpoint : string) (params : option ref) (signed : bool) : M value :=
  params ← match params with
           | None => alloc []
           | Some p => mret p
           end;
  params ← (if signed then _sign params else mret params);
  let url := base_url self ++ endpoint in
  response ← send POST url params;
  lift (_handle_response response).

Definition delete (endpoint : string) (params : option ref) (signed : bool) : M value :=
  params ← match params with
           | None => alloc []
           | Some p => mret p
           end;
  params ← (if signed then _sign params else mret params);
  let url := base_url self ++ endpoint in
  response ← send DELETE url params;
  lift (_handle_response response).

(** The loop of [get_exchange_info]: the first entry whose [symbol] equals
    [target], [None] when the loop runs to its end. *)
Fixpoint scan_symbols (entries : list value) (target : string) : result (option value) :=
  match entries with
  | [] => Ok None
  | sym_info :: rest =>
      s ← Py.get sym_info "symbol" VNone;
      if Py.eq_str s target then Ok (Some sym_info) else scan_symbols rest target
  end.

Definition symbol_not_found (symbol : string) : exn :=
  ValueError ("Symbol '" ++ symbol ++ "' was not found on Binance Futures Testnet. "
              ++ "Check that the symbol is correct (e.g. BTCUSDT).").

Definition get_exchange_info (symbol : string) : M value :=
  data ← get "/fapi/v1/exchangeInfo" None false;
  symbols ← lift (Py.get data "symbols" (VList []));
  entries ← lift (Py.iter symbols);
  found ← lift (scan_symbols entries (PyStr.upper symbol));
  match found with
  | Some sym_info => mret sym_info
  | None => raise (symbol_not_found symbol)
  end.

(** The comprehension of [get_account_balance]. *)
Fixpoint positive_balances (assets : list value) : result (list value) :=
  match assets with
  | [] => Ok []
  | asset :: rest =>
      b ← Py.get asset "walletBalance" (VInt 0);
      x ← Py.float b;
      kept ← positive_balances rest;
      mret (if PyFloat.gt_int x 0 then asset :: kept else kept)
  end.

Definition get_account_balance : M (list value) :=
  data ← get "/fapi/v2/account" None true;
  assets ← lift (Py.get data "assets" (VList []));
  entries ← lift (Py.iter assets);
  lift (positive_balances entries).

End Client.

(* ===================================================================== *)
(** * bot/validators.py *)
(* ===================================================================== *)

Definition all_upper_letters (s : string) : bool :=
  forallb PyStr.is_upper (PyStr.to_list s).

(** [re.compile(r"^[A-Z]{2,20}$").match(s)] on text without a line feed. *)
Definition matches_symbol_pattern (s : string) : bool :=
  all_upper_letters s && (2 <=? String.length s)%nat && (String.length s <=? 20)%nat.

Definition validate_symbol (symbol : string) : result string :=
  let symbol := PyStr.upper (PyStr.strip symbol) in
  if negb (matches_symbol_pattern symbol) then
    Err (BadParameter
           ("'" ++ symbol ++ "' is not a valid symbol. "
            ++ "Symbol must be 2–20 uppercase letters only (e.g. BTCUSDT, ETHUSDT).")
           "--symbol")
  else Ok symbol.

Definition valid_sides : list string := ["BUY"; "SELL"].

Definition validate_side (side : string) : result string :=
  let side := PyStr.upper (PyStr.strip side) in
  if negb (PyStr.mem side valid_sides) then
    Err (BadParameter
           ("'" ++ side ++ "' is not a valid side. Must be one of: "
            ++ PyStr.join ", " ["BUY"; "SELL"] ++ ".")
           "--side")
  else Ok side.

Definition valid_types : list string := ["MARKET"; "LIMIT"; "STOP_MARKET"; "STOP_LIMIT"].

Definition validate_order_type (order_type : string) : result string :=
  let order_type := PyStr.upper (PyStr.strip order_type) in
  if negb (PyStr.mem order_type valid_types) then
    Err (BadParameter
           ("'" ++ order_type ++ "' is not a supported order type. "
            ++ "Must be one of: "
            ++ PyStr.join ", " ["LIMIT"; "MARKET"; "STOP_LIMIT"; "STOP_MARKET"] ++ ".")
           "--type")
  else Ok order_type.

(** [except (ValueError, TypeError)] *)
Definition ValueError_or_TypeError (e : exn) : bool := is_ValueError e || is_TypeError e.

Definition validate_quantity (quantity : string) : result spec_float :=
  qty ← try_except (Py.float (VStr quantity)) ValueError_or_TypeError
          (Err (BadParameter
                  ("'" ++ quantity ++ "' is not a valid number. "
                   ++ "Quantity must be a positive decimal (e.g. 0.01).")
                  "--quantity"));
  if PyFloat.le_int qty 0 then
    Err (BadParameter
           ("Quantity must be greater than 0. Got: " ++ PyFloat.to_string qty ++ ".")
           "--quantity")
  else if PyFloat.gt_int qty 1000000 then
    Err (BadParameter
           ("Quantity exceeds the maximum allowed value of 1,000,000. Got: "
            ++ PyFloat.to_string qty ++ ".")
           "--quantity")
  else Ok qty.

Definition validate_price (price : option string) (order_type : string)
  : result (option spec_float) :=
  if PyStr.mem order_type ["MARKET"; "STOP_MARKET"] then
    match price with
    | Some _ =>
        Err (BadParameter
               ("Price must not be specified for " ++ order_type ++ " orders. "
                ++ "Remove the --price flag.")
               "--price")
    | None => Ok None
    end
  else
    match price with
    | None =>
        Err (BadParameter
               ("Price is required for LIMIT orders. " ++ "Please provide --price <value>.")
               "--price")
    | Some price =>
        parsed_price ← try_except (Py.float (VStr price)) ValueError_or_TypeError
                         (Err (BadParameter
                                 ("'" ++ price
                                  ++ "' is not a valid price. Must be a positive decimal number.")
                                 "--price"));
        if PyFloat.le_int parsed_price 0 then
          Err (BadParameter
                 ("Price must be greater than 0. Got: " ++ PyFloat.to_string parsed_price ++ ".")
                 "--price")
        else Ok (Some parsed_price)
    end.

Definition valid_tif : list string := ["GTC"; "IOC"; "FOK"].

Definition validate_time_in_force (tif : string) : result string :=
  if String.eqb tif "" then Ok "GTC"
  else
    let tif := PyStr.upper (PyStr.strip tif) in
    if negb (PyStr.mem tif valid_tif) then
      Err (BadParameter
             ("'" ++ tif ++ "' is not a valid time-in-force value. "
              ++ "Must be one of: " ++ PyStr.join ", " ["FOK"; "GTC"; "IOC"] ++ ".")
             "--tif")
    else Ok tif.

(* ===================================================================== *)
(** * cli.py: the stop price and the validation of [place-order] *)
(* ===================================================================== *)

Definition _validate_stop_price (stop_price : option string) (order_type : string)
  : result (option spec_float) :=
  let needs_stop := PyStr.mem order_type ["STOP_MARKET"; "STOP_LIMIT"] in
  if negb needs_stop then Ok None
  else
    match stop_price with
    | None =>
        Err (BadParameter
               ("--stop-price is required for " ++ order_type ++ " orders.")
               "--stop-price")
    | Some stop_price =>
        try_except
          (parsed ← Py.float (VStr stop_price);
           if PyFloat.le_int parsed 0 then Err (ValueError "")
           else Ok (Some parsed))
          is_ValueError
          (Err (BadParameter
                  ("'" ++ stop_price ++ "' is not a valid stop price. Must be a positive number.")
                  "--stop-price"))
    end.

(** What the validation of an order hands to [OrderManager.place_order]. *)
Record Order : Type := mkOrder {
  o_symbol : string;
  o_side : string;
  o_type : string;
  o_quantity : spec_float;
  o_price : option spec_float;
  o_tif : string;
  o_stop_price : option spec_float
}.

(** The [try] block of the [place-order] command. *)
Definition cli_validate (symbol side order_type quantity : string) (price : option string)
    (tif : string) (stop_price : option string) : result Order :=
  symbol ← validate_symbol symbol;
  side ← validate_side side;
  order_type ← validate_order_type order_type;
  qty ← validate_quantity quantity;
  parsed_price ← validate_price price
                   (if negb (String.eqb order_type "STOP_LIMIT") then order_type else "LIMIT");
  tif ← validate_time_in_force tif;
  parsed_stop_price ← _validate_stop_price stop_price order_type;
  mret (mkOrder symbol side order_type qty parsed_price tif parsed_stop_price).

(* ===================================================================== *)
(** * bot/orders.py *)
(* ===================================================================== *)

Definition is_None (v : value) : bool :=
  match v with VNone => true | _ => false end.

(** An [Optional[float]] as a value. *)
Definition of_optional (o : option spec_float) : value :=
  match o with
  | Some x => VFloat x
  | None => VNone
  end.

Section OrderManager.

Variable client : BinanceFuturesClient.

(** The first part of [place_order]: the dictionary [params] as it stands
    when it is handed to [client.post]. *)
Definition order_params (symbol side order_type : string) (quantity price : value)
    (time_in_force : string) (stop_price : value) : M ref :=
  params ← alloc [("symbol", VStr (PyStr.upper symbol));
                  ("side", VStr (PyStr.upper side));
                  ("type", VStr (PyStr.upper order_type));
                  ("quantity", VStr (Py.str quantity))];
  (if String.eqb (PyStr.upper order_type) "LIMIT" then
     if is_None price then raise (ValueError "Price is required for LIMIT orders.")
     else
       setitem params "price" (VStr (Py.str price));;
       setitem params "timeInForce" (VStr time_in_force)
   else if String.eqb (PyStr.upper order_type) "STOP_MARKET" then
     if is_None stop_price then
       raise (ValueError "stop_price is required for STOP_MARKET orders.")
     else setitem params "stopPrice" (VStr (Py.str stop_price))
   else if String.eqb (PyStr.upper order_type) "STOP_LIMIT" then
     if is_None price then
       raise (ValueError "Price (limit price) is required for STOP_LIMIT orders.")
     else if is_None stop_price then
       raise (ValueError "stop_price (trigger price) is required for STOP_LIMIT orders.")
     else
       setitem params "price" (VStr (Py.str price));;
       setitem params "stopPrice" (VStr (Py.str stop_price));;
       setitem params "timeInForce" (VStr time_in_force)
   else mret tt);;
  mret params.

Definition place_order (symbol side order_type : string) (quantity price : value)
    (time_in_force : string) (stop_price : value) : M value :=
  params ← order_params symbol side order_type quantity price time_in_force stop_price;
  response ← post client "/fapi/v1/order" (Some params) true;
  mret response.



(** [place_order] on the outcome of the validation, as both front ends
    call it. *)
Definition place_validated (o : Order) : M value :=
  place_order (o_symbol o) (o_side o) (o_type o) (VFloat (o_quantity o))
    (of_optional (o_price o)) (o_tif o) (of_optional (o_stop_price o)).

End OrderManager.

Section TimeString.

(** [datetime.fromtimestamp(t, tz=timezone.utc).strftime("%Y-%m-%d %H:%M:%S UTC")]
    for a float [t]: the text, or the exception that the conversion raises.
    The calendar and its range limits are the platform's and stay a
    parameter. *)
Variable utc_time_string : spec_float -> result string.

(** The body of the [try]: the division and the conversion. *)
Definition time_string (update_time_ms : value) : result string :=
  t ← Py.truediv_int update_time_ms 1000;
  utc_time_string t.

(** [except (OSError, OverflowError, ValueError)] *)
Definition conversion_errors (e : exn) : bool :=
  is_OSError e || is_OverflowError e || is_ValueError e.

Definition border : string := PyStr.replicate 60 "="%char.

Definition format_order_result (order : value) : result string :=
  update_time_ms ← Py.get order "updateTime" (VInt 0);
  time_str ← try_except (time_string update_time_ms) conversion_errors
               (Ok (Py.str update_time_ms));
  orderId ← Py.get order "orderId" (VStr "N/A");
  symbol ← Py.get order "symbol" (VStr "N/A");
  side ← Py.get order "side" (VStr "N/A");
  type ← Py.get order "type" (VStr "N/A");
  status ← Py.get order "status" (VStr "N/A");
  origQty ← Py.get order "origQty" (VStr "N/A");
  executedQty ← Py.get order "executedQty" (VStr "N/A");
  avgPrice ← Py.get order "avgPrice" (VStr "N/A");
  price ← Py.get order "price" (VStr "N/A");
  let lines :=
    [border;
     "           ORDER RESULT";
     border;
     "  Order ID     : " ++ Py.str orderId;
     "  Symbol       : " ++ Py.str symbol;
     "  Side         : " ++ Py.str side;
     "  Type         : " ++ Py.str type;
     "  Status       : " ++ Py.str status;
     "  Quantity     : " ++ Py.str origQty;
     "  Executed Qty : " ++ Py.str executedQty;
     "  Avg Price    : " ++ Py.str avgPrice;
     "  Price        : " ++ Py.str price;
     "  Time         : " ++ time_str;
     border] in
  mret (PyStr.join PyStr.newline lines).

(* ------------------------------------------------------------------- *)
(** ** app.py: the update time of [api_place_order] and [api_get_order] *)

(** [except Exception] *)
Definition any_exception (e : exn) : bool := true.

(** The order (the variable [result] of the view) with its
    [updateTimeHuman] entry. *)
Definition add_update_time_human (order : value) : result value :=
  update_ms ← Py.get order "updateTime" (VInt 0);
  human ← try_except (time_string update_ms) any_exception (Ok (Py.str update_ms));
  match order with
  | VDict d => Ok (VDict (PyDict.set d "updateTimeHuman" (VStr human)))
  | _ => Err TypeError
  end.

End TimeString.

(* ===================================================================== *)
(** * app.py: the validation of [api_place_order] *)
(* ===================================================================== *)

(** A step of a view either goes on with a value or returns a response
    early through [_error(message, status)]. *)
Inductive checked (A : Type) : Type :=
| Proceed (a : A)
| Respond (message : string) (status : Z).
Arguments Proceed {A} a.
Arguments Respond {A} message status.

(** [str(exc)] *)
Definition exn_str (e : exn) : string :=
  match e with
  | BadParameter m _ | ValueError m | HTTPError m _ => m
  | _ => ""
  end.

(** [v or None] *)
Definition or_None (v : value) : value := if Py.truthy v then v else VNone.

(** The stop price inside the [try] of [api_place_order]. *)
Definition api_stop_price (raw_stop : value) (order_type : string)
  : result (checked (option spec_float)) :=
  if PyStr.mem order_type ["STOP_MARKET"; "STOP_LIMIT"] then
    if is_None raw_stop then
      Ok (Respond ("stop_price is required for " ++ order_type ++ " orders.") 400)
    else
      parsed_stop ← Py.float raw_stop;
      if PyFloat.le_int parsed_stop 0 then
        Ok (Respond "stop_price must be a positive number." 400)
      else Ok (Proceed (Some parsed_stop))
  else Ok (Proceed None).

(** From the JSON body to the validated order: an early response with
    status 400, or an exception that no clause of the view catches here. *)
Definition api_validate (body : value) : result (checked Order) :=
  let data := if Py.truthy body then body else VDict [] in
  raw_symbol ← Py.get data "symbol" (VStr "");
  raw_side ← Py.get data "side" (VStr "");
  raw_type ← Py.get data "type" (VStr "");
  raw_qty ← Py.get data "quantity" (VStr "");
  raw_price ← or_None <$> Py.get data "price" VNone;
  raw_tif ← Py.get data "tif" (VStr "GTC");
  raw_stop ← or_None <$> Py.get data "stop_price" VNone;
  let attempt : result (checked Order) :=
    symbol ← validate_symbol (Py.str raw_symbol);
    side ← validate_side (Py.str raw_side);
    order_type ← validate_order_type (Py.str raw_type);
    qty ← validate_quantity (Py.str raw_qty);
    let price_type := if String.eqb order_type "STOP_LIMIT" then "LIMIT" else order_type in
    parsed_price ← validate_price
                     (if is_None raw_price then None else Some (Py.str raw_price)) price_type;
    tif ← validate_time_in_force (Py.str raw_tif);
    stop ← api_stop_price raw_stop order_type;
    match stop with
    | Respond m s => Ok (Respond m s)
    | Proceed parsed_stop =>
        Ok (Proceed (mkOrder symbol side order_type qty parsed_price tif parsed_stop))
    end in
  match attempt with
  | Ok c => Ok c
  | Err e =>
      if is_BadParameter e || is_ValueError e then Ok (Respond (exn_str e) 400)
      else Err e
  end.

(* ===================================================================== *)
(** * bot/logging_config.py *)
(* ===================================================================== *)

Inductive log_level : Type := DEBUG | INFO | WARNING.

Inductive handler_kind : Type :=
| RotatingFileHandler (filename : string) (maxBytes backupCount : Z) (encoding : string)
| StreamHandler.

Record Handler : Type := mkHandler {
  handler_kind_of : handler_kind;
  handler_level : log_level;
  handler_fmt : string;
  handler_datefmt : string
}.

(** The module global [_configured] and the root logger. *)
Record Logging : Type := mkLogging {
  _configured : bool;
  root_level : log_level;
  root_handlers : list Handler
}.

Definition _LOG_FORMAT : string := "[%(asctime)s] %(levelname)s %(name)s — %(message)s".
Definition _DATE_FORMAT : string := "%Y-%m-%d %H:%M:%S".
Definition _MAX_BYTES : Z := 5 * 1024 * 1024.
Definition _BACKUP_COUNT : Z := 3.

Section LoggingConfig.

(** The path [_LOG_FILE], which depends on where the package is installed. *)
Variable _LOG_FILE : string.

Definition file_handler : Handler :=
  mkHandler (RotatingFileHandler _LOG_FILE _MAX_BYTES _BACKUP_COUNT "utf-8")
    DEBUG _LOG_FORMAT _DATE_FORMAT.

Definition stream_handler : Handler :=
  mkHandler StreamHandler INFO _LOG_FORMAT _DATE_FORMAT.

(** [_configure_root_logger]: [fs_ok] tells whether [os.makedirs] and the
    opening of the log file succeed; when they do not, [OSError] is raised
    before anything is added to the root logger. *)
Definition _configure_root_logger (fs_ok : bool) (st : Logging) : result unit * Logging :=
  if _configured st then (Ok tt, st)
  else if negb fs_ok then (Err OSError, st)
  else (Ok tt, mkLogging true DEBUG (root_handlers st ++ [file_handler; stream_handler])%list).

(** [get_logger(name)]: the logger is known by its name. *)
Definition get_logger (name : string) (fs_ok : bool) (st : Logging) : result string * Logging :=
  match _configure_root_logger fs_ok st with
  | (Ok _, st') => (Ok name, st')
  | (Err e, st') => (Err e, st')
  end.

(** A run of calls of [get_logger], each with its own outcome of the file
    system; calls that raise are passed over. *)
Fixpoint get_logger_calls (calls : list (string * bool)) (st : Logging) : Logging :=
  match calls with
  | [] => st
  | (name, fs_ok) :: rest => get_logger_calls rest (snd (get_logger name fs_ok st))
  end.

End LoggingConfig.

(* ===================================================================== *)
(** * bot/client.py: the constructor *)
(* ===================================================================== *)

(** [BinanceFuturesClient()] either returns a client or raises
    [EnvironmentError], which is [OSError], with a message. *)
Inductive constructed : Type :=
| Configured (self : BinanceFuturesClient)
| EnvironmentError (message : string).

(** [os.getenv(name, "")] in the environment [environ]. *)
Definition getenv (environ : string -> option string) (name : string) : string :=
  default "" (environ name).

Section Constructor.

(** The process environment after [load_dotenv], and the
    [requests.Session()] that the constructor creates; the headers put on the
    session stay with the session. *)
Variable environ : string -> option string.
Variable new_session : Request -> result Response.

Variable _LOG_FILE : string.

(** [str(exc)] for an exception that a library raised without a message of
    the repository. *)
Variable library_message : exn -> string.

(** [__init__] on the state of the logging module: its last statement is
    the call of [get_logger], whose [OSError] leaves the constructor. *)
Definition __init__ (fs_ok : bool) (st : Logging) : constructed * Logging :=
  let api_key := getenv environ "BINANCE_API_KEY" in
  let api_secret := getenv environ "BINANCE_API_SECRET" in
  if String.eqb api_key "" then
    (EnvironmentError
       ("BINANCE_API_KEY is not set. "
        ++ "Please copy .env.example to .env and fill in your testnet API key."), st)
  else if String.eqb api_secret "" then
    (EnvironmentError
       ("BINANCE_API_SECRET is not set. "
        ++ "Please copy .env.example to .env and fill in your testnet API secret."), st)
  else
    match get_logger _LOG_FILE "BinanceFuturesClient" fs_ok st with
    | (Ok _, st') => (Configured (mkClient api_key api_secret BASE_URL new_session), st')
    | (Err e, st') => (EnvironmentError (library_message e), st')
    end.

End Constructor.

(* ===================================================================== *)
(** * app.py: the views [api_balance] and [api_place_order] *)
(* ===================================================================== *)

(** What a view returns: [(jsonify(body), status)]. *)
Record view_response : Type := mkView {
  view_body : value;
  view_status : Z
}.

Definition _error (message : string) (status : Z) : view_response :=
  mkView (VDict [("success", VBool false); ("error", VStr message)]) status.

Definition is_HTTPError (e : exn) : bool :=
  match e with HTTPError _ _ => true | _ => false end.

Definition is_JSONDecodeError (e : exn) : bool :=
  match e with JSONDecodeError => true | _ => false end.

Section Views.

Variable environ : string -> option string.
Variable session : Request -> result Response.
Variable utc_time_string : spec_float -> result string.
Variable library_message : exn -> string.
Variable _LOG_FILE : string.

(** Whether the [JSONDecodeError] of [response.json()] is the one of
    [requests] (a [RequestException], from version 2.27 on) or the one of the
    [json] module. *)
Variable json_error_is_request_exception : bool.

(** [str(exc)] *)
Definition str_exc (e : exn) : string :=
  match e with
  | BadParameter m _ | ValueError m | HTTPError m _ => m
  | _ => library_message e
  end.

(** [except EnvironmentError]: [EnvironmentError] is [OSError]. *)
Definition is_EnvironmentError (e : exn) : bool :=
  is_OSError e || (json_error_is_request_exception && is_JSONDecodeError e).

(** The three [except] clauses that close both views, in their order. *)
Definition view_except (e : exn) : view_response :=
  if is_EnvironmentError e then _error (str_exc e) 503
  else if is_HTTPError e then _error (str_exc e) 502
  else _error ("Unexpected error: " ++ str_exc e) 500.

(** [fs_ok] and [st] are the file system and the logging module as the view
    finds them; the state of the logging module after the call is not part
    of the outcome. *)
Definition _get_client (fs_ok : bool) (st : Logging) : constructed :=
  fst (__init__ environ session _LOG_FILE library_message fs_ok st).

Definition api_balance (fs_ok : bool) (st : Logging) (w : World) : view_response * World :=
  match _get_client fs_ok st with
  | EnvironmentError m => (_error m 503, w)
  | Configured client =>
      match get_account_balance client w with
      | (Ok balances, w') =>
          (mkView (VDict [("success", VBool true); ("balances", VList balances)]) 200, w')
      | (Err e, w') => (view_except e, w')
      end
  end.

(** [api_place_order] on the decoded request body ([None] when the body is
    not JSON): the response, or the exception that leaves the view. *)
Definition api_place_order (fs_ok : bool) (st : Logging) (body : value) (w : World)
  : result view_response * World :=
  match api_validate body with
  | Err e => (Err e, w)
  | Ok (Respond m s) => (Ok (_error m s), w)
  | Ok (Proceed o) =>
      match _get_client fs_ok st with
      | EnvironmentError m => (Ok (_error m 503), w)
      | Configured client =>
          match place_validated client o w with
          | (Ok order, w') =>
              match add_update_time_human utc_time_string order with
              | Ok order' =>
                  (Ok (mkView (VDict [("success", VBool true); ("order", order')]) 200), w')
              | Err e => (Ok (view_except e), w')
              end
          | (Err e, w') => (Ok (view_except e), w')
          end
      end
  end.

End Views.

(* ===================================================================== *)
(** * cli.py: the commands [place-order] and [order-status] *)
(* ===================================================================== *)

(** What a command has written with [click.echo], one entry per call. *)
Record terminal : Type := mkTerminal {
  stdout : list string;
  stderr : list string
}.

(** How a command ends: it returns, it leaves through [sys.exit(code)], or an
    exception that nothing catches leaves it. *)
Inductive ending : Type :=
| Returned
| SysExit (code : Z)
| Uncaught (e : exn).

Module cli.

Definition _print_order_summary (symbol side order_type : string) (qty : spec_float)
    (price stop_price : option spec_float) (tif : string) : list string :=
  let first_lines :=
    [border;
     "           ORDER REQUEST SUMMARY";
     border;
     "  Symbol     : " ++ symbol;
     "  Side       : " ++ side;
     "  Type       : " ++ order_type;
     "  Quantity   : " ++ PyFloat.to_string qty;
     "  Price      : " ++ match price with Some x => PyFloat.to_string x | None => "N/A" end]
  in
  let stop_line :=
    match stop_price with
    | Some y => ["  Stop Price : " ++ PyFloat.to_string y]
    | None => []
    end in
  let tif_line :=
    if PyStr.mem order_type ["LIMIT"; "STOP_LIMIT"] then ["  TIF        : " ++ tif] else []
  in
  (first_lines ++ stop_line ++ tif_line ++ [border; ""])%list.

Section Commands.

Variable environ : string -> option string.
Variable new_session : Request -> result Response.
Variable utc_time_string : spec_float -> result string.
Variable library_message : exn -> string.
Variable _LOG_FILE : string.

(** [_make_client]: the client, or the line written to the standard error
    before [sys.exit(1)].  [fs_ok] and [st] are the file system and the
    logging module as the command finds them. *)
Definition _make_client (fs_ok : bool) (st : Logging) : BinanceFuturesClient + string :=
  match fst (__init__ environ new_session _LOG_FILE library_message fs_ok st) with
  | Configured client => inl client
  | EnvironmentError message => inr ("❌ Configuration error: " ++ message)
  end.

Definition _execute_and_print_order (client : BinanceFuturesClient) (o : Order) (w : World)
  : ending * terminal * World :=
  match place_validated client o w with
  | (Err e, w') =>
      if is_HTTPError e then
        (SysExit 1,
         mkTerminal []
           [PyStr.newline ++ "❌ Order failed: " ++ str_exc library_message e], w')
      else
        (SysExit 1,
         mkTerminal []
           [PyStr.newline ++ "❌ Unexpected error: " ++ str_exc library_message e], w')
  | (Ok order, w') =>
      match format_order_result utc_time_string order with
      | Ok text => (Returned, mkTerminal [text; ""; "✅ Order placed successfully!"] [], w')
      | Err e => (Uncaught e, mkTerminal [] [], w')
      end
  end.

(** The command [place-order] on the texts of its options. *)
Definition place_order (symbol side order_type quantity : string) (price : option string)
    (tif : string) (stop_price : option string) (fs_ok : bool) (st : Logging) (w : World)
  : ending * terminal * World :=
  match cli_validate symbol side order_type quantity price tif stop_price with
  | Err e =>
      if is_BadParameter e then
        (SysExit 1,
         mkTerminal [] ["❌ Validation error: " ++ str_exc library_message e], w)
      else (Uncaught e, mkTerminal [] [], w)
  | Ok o =>
      let printed :=
        _print_order_summary (o_symbol o) (o_side o) (o_type o) (o_quantity o) (o_price o)
          (o_stop_price o) (o_tif o) in
      match _make_client fs_ok st with
      | inr line => (SysExit 1, mkTerminal printed [line], w)
      | inl client =>
          match _execute_and_print_order client o w with
          | (e, t, w') => (e, mkTerminal (printed ++ stdout t) (stderr t), w')
          end
      end
  end.


End Commands.

End cli.

(* ===================================================================== *)
(** * Vocabulary of the statements: derived notions and concrete inputs *)
(* ===================================================================== *)

(** The dictionary that [_sign] leaves in place of [d]. *)
Definition signed (secret : string) (now : Z) (d : dict) : dict :=
  let d1 := PyDict.set d "timestamp" (VInt now) in
  PyDict.set d1 "signature" (VStr (HMAC.hexdigest secret (Url.urlencode d1))).

(** The three methods of the executor, by HTTP method. *)
Definition executor (self : BinanceFuturesClient) (m : http_method)
  : string -> option ref -> bool -> M value :=
  match m with
  | GET => get self
  | POST => post self
  | DELETE => delete self
  end.

(** The store after a call on the dictionary [p]. *)
Definition after_sign (self : BinanceFuturesClient) (signed_flag : bool) (p : ref) (w : World)
  : World :=
  if signed_flag
  then set_heap (<[p := signed (api_secret self) (clock_ms w) (deref w p)]> (heap w)) w
  else w.



(** A client whose session answers every request with an empty JSON object,
    and a world whose only dictionary already has a [signature] entry. *)
Definition demo_session (r : Request) : result Response :=
  Ok (mkResponse 200 "{}" (Some (VDict []))).

Definition demo_client : BinanceFuturesClient :=
  mkClient "key" "secret" BASE_URL demo_session.


(** The message that a non-200 response surfaces with. *)
Definition api_error_message (status : Z) (code msg : value) : string :=
  "Binance API Error " ++ PyStr.of_Z status ++ ": " ++ Py.str code ++ " — " ++ Py.str msg.

(** The body [{"code": -1121, "msg": "Invalid symbol."}] under status 400. *)
Definition invalid_symbol_response : Response :=
  mkResponse 400
    ("{" ++ PyStr.dquote ++ "code" ++ PyStr.dquote ++ ": -1121, "
         ++ PyStr.dquote ++ "msg" ++ PyStr.dquote ++ ": "
         ++ PyStr.dquote ++ "Invalid symbol." ++ PyStr.dquote ++ "}")
    (Some (VDict [("code", VInt (-1121)); ("msg", VStr "Invalid symbol.")])).

(** The body [[]] under status 500. *)
Definition array_error_response : Response :=
  mkResponse 500 "[]" (Some (VList [])).

(** The outcome of the first part of [place_order]: the dictionary built,
    or the exception raised while building it. *)
Definition built_params (symbol side order_type : string)
    (quantity price : value) (time_in_force : string) (stop_price : value) (w : World)
  : result dict :=
  match order_params symbol side order_type quantity price time_in_force stop_price w with
  | (Ok p, w') => Ok (deref w' p)
  | (Err e, _) => Err e
  end.

(** The four entries that every order starts with. *)
Definition base_params (symbol side order_type : string) (quantity : value) : dict :=
  [("symbol", VStr (PyStr.upper symbol));
   ("side", VStr (PyStr.upper side));
   ("type", VStr (PyStr.upper order_type));
   ("quantity", VStr (Py.str quantity))].

(** The float [0.01]. *)
Definition float_0_01 : spec_float := PyFloat.of_decimal false 1 (-2).

(** [0 < x <= 1_000_000] on floats. *)
Definition in_quantity_range (x : spec_float) : bool :=
  PyFloat.ltb (PyFloat.round_Z 0) x && PyFloat.leb x (PyFloat.round_Z 1000000).

(** [0 < x] on floats. *)
Definition positive (x : spec_float) : bool := PyFloat.ltb (PyFloat.round_Z 0) x.

(** The wallet balance of an entry as the comprehension reads it: the
    [walletBalance] field, [0] when absent, through [float]. *)
Definition wallet_balance (asset : value) : result spec_float :=
  b ← Py.get asset "walletBalance" (VInt 0);
  Py.float b.

(** An entry whose wallet balance is strictly greater than zero. *)
Definition has_positive_balance (asset : value) : bool :=
  match wallet_balance asset with
  | Ok x => PyFloat.gt_int x 0
  | Err _ => false
  end.

(** An entry of an account response: an object whose wallet balance, when
    present, is a number or the text of one. *)
Definition balance_entry (asset : value) : Prop :=
  exists x, wallet_balance asset = Ok x.

(** A client whose exchange holds no USDT and 12.5 BNB. *)
Definition usdt_entry : value := VDict [("asset", VStr "USDT"); ("walletBalance", VStr "0")].

Definition bnb_entry : value := VDict [("asset", VStr "BNB"); ("walletBalance", VStr "12.5")].

Definition account_body : value := VDict [("assets", VList [usdt_entry; bnb_entry])].

Definition account_client : BinanceFuturesClient :=
  mkClient "key" "secret" BASE_URL (fun _ => Ok (mkResponse 200 "" (Some account_body))).

Definition empty_world : World := mkWorld [] 1700000000000 [].

(** The [symbol] field of an entry equals [target]. *)
Definition symbol_is (target : string) (entry : value) : bool :=
  match entry with
  | VDict d =>
      match PyDict.get d "symbol" with
      | Some s => Py.eq_str s target
      | None => false
      end
  | _ => false
  end.

(** The specification's reading: the [symbol] field of an entry matches
    the query when both are compared without regard to case. *)
Definition symbol_matches_ignoring_case (query : string) (entry : value) : bool :=
  match entry with
  | VDict d =>
      match PyDict.get d "symbol" with
      | Some (VStr s) => String.eqb (PyStr.upper s) (PyStr.upper query)
      | _ => false
      end
  | _ => false
  end.

Definition is_object (v : value) : Prop := exists d, v = VDict d.

(** A client whose exchange lists its one symbol in lower case. *)
Definition lowercase_entry : value := VDict [("symbol", VStr "btcusdt")].

Definition lowercase_body : value := VDict [("symbols", VList [lowercase_entry])].

Definition lowercase_client : BinanceFuturesClient :=
  mkClient "key" "secret" BASE_URL (fun _ => Ok (mkResponse 200 "" (Some lowercase_body))).

(** An order whose update time is text, and one whose update time is null. *)
Definition text_time_order : value :=
  VDict [("orderId", VInt 7); ("updateTime", VStr "1700000000000")].

Definition null_time_order : value :=
  VDict [("orderId", VInt 7); ("updateTime", VNone)].

(** A number as update time: [int], [float] or [bool]. *)
Definition is_number (v : value) : bool :=
  match v with
  | VInt _ | VFloat _ | VBool _ => true
  | _ => false
  end.

(** An order whose fields fit its type: a symbol of 2 to 20 upper-case
    letters, a known side and time in force, a quantity that passed both
    guards, a price exactly for LIMIT and STOP_LIMIT and a stop price exactly
    for STOP_MARKET and STOP_LIMIT, each having passed its guard. *)
Definition consistent_order (o : Order) : Prop :=
  matches_symbol_pattern (o_symbol o) = true
  /\ In (o_side o) valid_sides
  /\ In (o_tif o) valid_tif
  /\ PyFloat.le_int (o_quantity o) 0 = false
  /\ PyFloat.gt_int (o_quantity o) 1000000 = false
  /\ ((o_type o = "MARKET" /\ o_price o = None /\ o_stop_price o = None)
      \/ (o_type o = "LIMIT"
          /\ (exists x, o_price o = Some x /\ PyFloat.le_int x 0 = false)
          /\ o_stop_price o = None)
      \/ (o_type o = "STOP_MARKET"
          /\ o_price o = None
          /\ (exists y, o_stop_price o = Some y /\ PyFloat.le_int y 0 = false))
      \/ (o_type o = "STOP_LIMIT"
          /\ (exists x, o_price o = Some x /\ PyFloat.le_int x 0 = false)
          /\ (exists y, o_stop_price o = Some y /\ PyFloat.le_int y 0 = false))).

(** The entries that go out for an order: the four of every order, then
    [price], [stopPrice] and [timeInForce] as the order has a price and a
    stop price. *)
Definition order_entries (o : Order) : dict :=
  ([("symbol", VStr (o_symbol o)); ("side", VStr (o_side o)); ("type", VStr (o_type o));
    ("quantity", VStr (PyFloat.to_string (o_quantity o)))]
   ++ match o_price o, o_stop_price o with
      | Some x, None =>
          [("price", VStr (PyFloat.to_string x)); ("timeInForce", VStr (o_tif o))]
      | None, Some y => [("stopPrice", VStr (PyFloat.to_string y))]
      | Some x, Some y =>
          [("price", VStr (PyFloat.to_string x)); ("stopPrice", VStr (PyFloat.to_string y));
           ("timeInForce", VStr (o_tif o))]
      | None, None => []
      end)%list.

(** The JSON body that carries the arguments of the command line to the web
    view: the optional ones are present when given. *)
Definition request_body (symbol side order_type quantity : string) (price : option string)
    (tif : string) (stop_price : option string) : value :=
  VDict ([("symbol", VStr symbol); ("side", VStr side); ("type", VStr order_type);
          ("quantity", VStr quantity)]
         ++ match price with Some p => [("price", VStr p)] | None => [] end
         ++ [("tif", VStr tif)]
         ++ match stop_price with Some s => [("stop_price", VStr s)] | None => [] end)%list.

(** The update time of an order, 0 when the order has none. *)
Definition update_time (d : dict) : value := default (VInt 0) (PyDict.get d "updateTime").

(** The UTC text of an update time, or the raw value when the conversion
    raises. *)
Definition time_or_raw (utc_time_string : spec_float -> result string) (ms : value) : string :=
  match time_string utc_time_string ms with
  | Ok s => s
  | Err _ => Py.str ms
  end.

(** A field of an order as the summary shows it. *)
Definition shown (d : dict) (k : string) : string :=
  Py.str (default (VStr "N/A") (PyDict.get d k)).

(** The summary of the order [d] with the time line [time_str]. *)
Definition summary (d : dict) (time_str : string) : string :=
  PyStr.join PyStr.newline
    [border;
     "           ORDER RESULT";
     border;
     "  Order ID     : " ++ shown d "orderId";
     "  Symbol       : " ++ shown d "symbol";
     "  Side         : " ++ shown d "side";
     "  Type         : " ++ shown d "type";
     "  Status       : " ++ shown d "status";
     "  Quantity     : " ++ shown d "origQty";
     "  Executed Qty : " ++ shown d "executedQty";
     "  Avg Price    : " ++ shown d "avgPrice";
     "  Price        : " ++ shown d "price";
     "  Time         : " ++ time_str;
     border].

(** A time conversion that knows the epoch and is out of range everywhere
    else. *)
Definition epoch_only (t : spec_float) : result string :=
  match t with
  | S754_zero _ => Ok "1970-01-01 00:00:00 UTC"
  | S754_nan => Err (ValueError "cannot convert float NaN to integer")
  | _ => Err OverflowError
  end.



(* ===================================================================== *)
(** * Reference values of the library models *)
(* ===================================================================== *)

(** The models of [hashlib], [hmac], [float], [str] and [urlencode] on
    published test vectors and on values of CPython 3.11. *)

Example sha256_abc :
  HMAC.sha256_hex "abc"
  = "ba7816bf8f01cfea414140de5dae2223b00361a396177a9cb410ff61f20015ad".
Proof. vm_compute. reflexivity. Qed.

Example hmac_sha256_rfc4231_case2 :
  HMAC.hexdigest "Jefe" "what do ya want for nothing?"
  = "5bdcc146bf60754e6a042426089575c75a003f089d2739839dec58b964ec3843".
Proof. vm_compute. reflexivity. Qed.

Example float_of_string_values :
  List.map PyFloat.of_string
    ["0.01"; " 2.5 "; "1_000"; "1e3"; "-0"; "inf"; "-Infinity"; "NaN"; ""; "abc"; "1e"; "1__0"]
  = [Some (S754_finite false 5764607523034235 (-59));
     Some (S754_finite false 5629499534213120 (-51));
     Some (S754_finite false 8796093022208000 (-43));
     Some (S754_finite false 8796093022208000 (-43));
     Some (S754_zero true); Some (S754_infinity false); Some (S754_infinity true);
     Some S754_nan; None; None; None; None].
Proof. vm_compute. reflexivity. Qed.

Example float_to_string_values :
  List.map PyFloat.to_string
    [PyFloat.of_decimal false 1 (-2); PyFloat.of_decimal false 50000 0;
     PyFloat.of_decimal false 1 (-8); PyFloat.of_decimal false 1 16;
     PyFloat.of_decimal false 1 15; PyFloat.of_decimal true 125 (-1);
     PyFloat.of_decimal false 1 23; S754_nan; S754_infinity true; S754_zero true]
  = ["0.01"; "50000.0"; "1e-08"; "1e+16"; "1000000000000000.0"; "-12.5"; "1e+23";
     "nan"; "-inf"; "-0.0"].
Proof. vm_compute. reflexivity. Qed.

Example urlencode_values :
  Url.urlencode [("symbol", VStr "BTC USDT/~"); ("orderId", VInt 12);
                 ("quantity", VStr "0.01"); ("timestamp", VInt 1700000000000)]
  = "symbol=BTC+USDT%2F~&orderId=12&quantity=0.01&timestamp=1700000000000".
Proof. vm_compute. reflexivity. Qed.

(* ===================================================================== *)
(** * Properties of dictionaries and of the store *)
(* ===================================================================== *)

Arguments HMAC.hexdigest : simpl never.
Arguments Url.urlencode : simpl never.
Arguments PyFloat.to_string : simpl never.
Arguments PyFloat.of_string : simpl never.
Arguments PyFloat.le_int : simpl never.
Arguments PyFloat.gt_int : simpl never.
Arguments PyFloat.round_Z : simpl never.

Section DictFacts.

Implicit Types (d : dict) (k : string) (v : value).


Lemma dict_get_set_eq d k v : PyDict.get (PyDict.set d k v) k = Some v.
Proof.
  induction d as [|[k' v'] d IH]; simpl.
  - now rewrite String.eqb_refl.
  - destruct (String.eqb k' k) eqn:E; simpl; rewrite E; [reflexivity|exact IH].
Qed.

Lemma dict_get_set_ne d k k' v :
  k <> k' -> PyDict.get (PyDict.set d k v) k' = PyDict.get d k'.
Proof.
  intros Hne.
  assert (Hk : String.eqb k k' = false) by now apply String.eqb_neq.
  induction d as [|[k0 v0] d IH]; simpl.
  - now rewrite Hk.
  - destruct (String.eqb k0 k) eqn:E; simpl.
    + apply String.eqb_eq in E. subst k0. now rewrite Hk.
    + now rewrite IH.
Qed.




End DictFacts.

Section StoreFacts.

Lemma deref_lookup w p d : heap w !! p = Some d -> deref w p = d.
Proof. unfold deref. now intros ->. Qed.

Lemma deref_insert w p d d' :
  heap w !! p = Some d -> deref (set_heap (<[p := d']> (heap w)) w) p = d'.
Proof.
  intros H. unfold deref. simpl.
  rewrite list_lookup_insert_eq; [reflexivity|].
  eapply lookup_lt_Some; eassumption.
Qed.

End StoreFacts.

(* ===================================================================== *)
(** * The signed request executor *)
(* ===================================================================== *)

Section Executor.

Variable self : BinanceFuturesClient.

Lemma sign_run p w d :
  heap w !! p = Some d ->
  _sign self p w = (Ok p, after_sign self true p w).
Proof.
  intros H. unfold _sign, after_sign, mbind, M_bind, now_ms, setitem, load, mret, M_ret.
  cbn [clock_ms heap set_heap wire].
  rewrite (deref_lookup _ _ _ H).
  rewrite (deref_insert _ _ _ _ H).
  rewrite list_insert_insert_eq.
  reflexivity.
Qed.

Lemma executor_run m endpoint p flag w d :
  heap w !! p = Some d ->
  executor self m endpoint (Some p) flag w =
    let w1 := after_sign self flag p w in
    let r := mkRequest m (base_url self ++ endpoint) (deref w1 p) 10 in
    (x ← session self r; _handle_response x,
     mkWorld (heap w1) (clock_ms w1) (wire w1 ++ [r])%list).
Proof.
  intros H.
  assert (Hs : (if flag then _sign self p else mret p) w = (Ok p, after_sign self flag p w)).
  { destruct flag; [exact (sign_run p w d H)|reflexivity]. }
  destruct m; unfold executor, get, post, delete;
    unfold mbind, M_bind, result_bind, mret, M_ret in *; cbn beta;
    rewrite Hs; unfold send, lift; cbn zeta;
    destruct (session self _); reflexivity.
Qed.

Lemma executor_wire m endpoint p flag w d :
  heap w !! p = Some d ->
  wire (snd (executor self m endpoint (Some p) flag w))
  = (wire w ++ [mkRequest m (base_url self ++ endpoint)
                  (if flag then signed (api_secret self) (clock_ms w) d else d) 10])%list.
Proof.
  intros H. rewrite (executor_run m endpoint p flag w d H).
  destruct flag; cbn [snd wire after_sign set_heap heap clock_ms].
  - now rewrite (deref_insert _ _ _ _ H), (deref_lookup _ _ _ H).
  - now rewrite (deref_lookup _ _ _ H).
Qed.

(** Without a dictionary from the caller, the call runs on a fresh empty
    one. *)
Lemma executor_none m endpoint flag w :
  executor self m endpoint None flag w
  = executor self m endpoint (Some (List.length (heap w))) flag
      (set_heap (heap w ++ [[]])%list w).
Proof. destruct m; reflexivity. Qed.

Lemma bind_mret_snd {A} (c : M A) (w : World) :
  snd ((x ← c; mret x) w) = snd (c w).
Proof.
  unfold mbind, M_bind, mret, M_ret. now destruct (c w) as [[a|e] w'].
Qed.

End Executor.

(** ** The parameters of a signed request *)





(** ** The caller's dictionary after a signed call *)

Lemma signed_get_timestamp secret now d :
  PyDict.get (signed secret now d) "timestamp" = Some (VInt now).
Proof.
  unfold signed. rewrite dict_get_set_ne by discriminate. apply dict_get_set_eq.
Qed.





(** ** The response contract *)

Section ResponseContract.

Implicit Types (response : Response) (body : value).

Lemma handle_response_200 response body :
  status_code response = 200 -> json response = Some body ->
  _handle_response response = Ok body.
Proof.
  intros Hs Hj. unfold _handle_response, response_json. now rewrite Hs, Hj.
Qed.

(** A non-200 response whose body is a JSON object. *)
Lemma handle_response_error_object response (fields : dict) :
  status_code response <> 200 -> json response = Some (VDict fields) ->
  _handle_response response =
    Err (HTTPError
           (api_error_message (status_code response)
              (default (VStr "N/A") (PyDict.get fields "code"))
              (default (VStr (text response)) (PyDict.get fields "msg")))
           response).
Proof.
  intros Hs Hj. unfold _handle_response, response_json.
  apply Z.eqb_neq in Hs. rewrite Hs, Hj. cbn.
  destruct (PyDict.get fields "code"), (PyDict.get fields "msg"); reflexivity.
Qed.

(** A non-200 response whose body is not JSON. *)
Lemma handle_response_error_text response :
  status_code response <> 200 -> json response = None ->
  _handle_response response =
    Err (HTTPError
           (api_error_message (status_code response) (VStr "N/A") (VStr (text response)))
           response).
Proof.
  intros Hs Hj. unfold _handle_response, response_json.
  apply Z.eqb_neq in Hs. now rewrite Hs, Hj.
Qed.

(** A non-200 response whose body is JSON but not an object: the [get] on
    it raises [AttributeError], which the [except ValueError] lets through. *)
Lemma handle_response_error_not_object response body :
  status_code response <> 200 -> json response = Some body ->
  (forall fields, body <> VDict fields) ->
  _handle_response response = Err AttributeError.
Proof.
  intros Hs Hj Hb. unfold _handle_response, response_json.
  apply Z.eqb_neq in Hs. rewrite Hs, Hj. cbn.
  destruct body; try reflexivity. now destruct (Hb d).
Qed.

Example handle_response_invalid_symbol :
  _handle_response invalid_symbol_response
  = Err (HTTPError "Binance API Error 400: -1121 — Invalid symbol." invalid_symbol_response).
Proof. reflexivity. Qed.

(** C2, at the input where the code departs from it.  A response with
    status 500 whose body is the JSON array [[]] does not surface as an
    [HTTPError] carrying status, code and message: [_handle_response] raises
    [AttributeError]. *)
Theorem handle_response_array_body :
  _handle_response array_error_response = Err AttributeError.
Proof. reflexivity. Qed.

End ResponseContract.

(** ** The parameters that [place_order] builds *)

Section PlaceOrder.

Variable client : BinanceFuturesClient.

Lemma setitem_last (h : list dict) (d : dict) (k : string) (v : value) (c : Z)
    (wr : list Request) :
  setitem (List.length h) k v (mkWorld (h ++ [d])%list c wr)
  = (Ok tt, mkWorld (h ++ [PyDict.set d k v])%list c wr).
Proof.
  unfold setitem, set_heap, deref. cbn [heap clock_ms wire].
  rewrite lookup_app_r by reflexivity. rewrite Nat.sub_diag. cbn [lookup list_lookup default].
  replace (<[List.length h := PyDict.set d k v]> (h ++ [d])%list)
    with (<[(List.length h + 0)%nat := PyDict.set d k v]> (h ++ [d])%list)
    by (now rewrite Nat.add_0_r).
  now rewrite insert_app_r.
Qed.

Lemma deref_last (h : list dict) (d : dict) (c : Z) (wr : list Request) :
  deref (mkWorld (h ++ [d])%list c wr) (List.length h) = d.
Proof.
  unfold deref. cbn [heap]. rewrite lookup_app_r by reflexivity.
  now rewrite Nat.sub_diag.
Qed.

(** What [order_params] does, for every order type: it allocates one
    dictionary, leaves the wire alone, and returns the new reference or
    raises. *)
Lemma order_params_run symbol side order_type quantity price tif stop_price w :
  let ot := PyStr.upper order_type in
  let base := base_params symbol side order_type quantity in
  let outcome : result dict :=
    if String.eqb ot "LIMIT" then
      if is_None price then Err (ValueError "Price is required for LIMIT orders.")
      else Ok (base ++ [("price", VStr (Py.str price)); ("timeInForce", VStr tif)])%list
    else if String.eqb ot "STOP_MARKET" then
      if is_None stop_price then
        Err (ValueError "stop_price is required for STOP_MARKET orders.")
      else Ok (base ++ [("stopPrice", VStr (Py.str stop_price))])%list
    else if String.eqb ot "STOP_LIMIT" then
      if is_None price then
        Err (ValueError "Price (limit price) is required for STOP_LIMIT orders.")
      else if is_None stop_price then
        Err (ValueError "stop_price (trigger price) is required for STOP_LIMIT orders.")
      else Ok (base ++ [("price", VStr (Py.str price));
                        ("stopPrice", VStr (Py.str stop_price));
                        ("timeInForce", VStr tif)])%list
    else Ok base in
  order_params symbol side order_type quantity price tif stop_price w
  = match outcome with
    | Ok d => (Ok (List.length (heap w)), mkWorld (heap w ++ [d])%list (clock_ms w) (wire w))
    | Err e => (Err e, mkWorld (heap w ++ [base])%list (clock_ms w) (wire w))
    end.
Proof.
  intros ot base outcome. unfold outcome, order_params.
  fold ot. fold (base_params symbol side order_type quantity). fold base.
  unfold mbind at 1. unfold M_bind. unfold alloc, set_heap.
  destruct (String.eqb ot "LIMIT");
    [|destruct (String.eqb ot "STOP_MARKET"); [|destruct (String.eqb ot "STOP_LIMIT")]];
    repeat match goal with
           | |- context [is_None ?v] => destruct (is_None v)
           end;
    unfold mbind, M_bind, raise, mret, M_ret;
    rewrite ?setitem_last; try reflexivity.
Qed.

Lemma built_params_eq symbol side order_type quantity price tif stop_price w :
  let ot := PyStr.upper order_type in
  let base := base_params symbol side order_type quantity in
  built_params symbol side order_type quantity price tif stop_price w
  = if String.eqb ot "LIMIT" then
      if is_None price then Err (ValueError "Price is required for LIMIT orders.")
      else Ok (base ++ [("price", VStr (Py.str price)); ("timeInForce", VStr tif)])%list
    else if String.eqb ot "STOP_MARKET" then
      if is_None stop_price then
        Err (ValueError "stop_price is required for STOP_MARKET orders.")
      else Ok (base ++ [("stopPrice", VStr (Py.str stop_price))])%list
    else if String.eqb ot "STOP_LIMIT" then
      if is_None price then
        Err (ValueError "Price (limit price) is required for STOP_LIMIT orders.")
      else if is_None stop_price then
        Err (ValueError "stop_price (trigger price) is required for STOP_LIMIT orders.")
      else Ok (base ++ [("price", VStr (Py.str price));
                        ("stopPrice", VStr (Py.str stop_price));
                        ("timeInForce", VStr tif)])%list
    else Ok base.
Proof.
  intros ot base. unfold built_params. rewrite order_params_run. cbv zeta. fold ot base.
  destruct (String.eqb ot "LIMIT");
    [|destruct (String.eqb ot "STOP_MARKET"); [|destruct (String.eqb ot "STOP_LIMIT")]];
    repeat match goal with
           | |- context [is_None ?v] => destruct (is_None v)
           end;
    rewrite ?deref_last; reflexivity.
Qed.

Lemma order_params_cases symbol side order_type quantity price tif stop_price w :
  exists outcome : result dict,
    order_params symbol side order_type quantity price tif stop_price w
    = match outcome with
      | Ok d => (Ok (List.length (heap w)), mkWorld (heap w ++ [d])%list (clock_ms w) (wire w))
      | Err e =>
          (Err e,
           mkWorld (heap w ++ [base_params symbol side order_type quantity])%list
             (clock_ms w) (wire w))
      end.
Proof. eexists. apply order_params_run. Qed.

(** [place_order] as a whole: nothing reaches the wire when building the
    parameters raises, and otherwise one signed POST carries them. *)
Lemma place_order_run symbol side order_type quantity price tif stop_price w :
  match built_params symbol side order_type quantity price tif stop_price w with
  | Err e =>
      fst (place_order client symbol side order_type quantity price tif stop_price w) = Err e
      /\ wire (snd (place_order client symbol side order_type quantity price tif stop_price w))
         = wire w
  | Ok d =>
      wire (snd (place_order client symbol side order_type quantity price tif stop_price w))
      = (wire w ++ [mkRequest POST (base_url client ++ "/fapi/v1/order")
                      (signed (api_secret client) (clock_ms w) d) 10])%list
  end.
Proof.
  destruct (order_params_cases symbol side order_type quantity price tif stop_price w)
    as [[d|e] Ho].
  - unfold built_params, place_order. unfold mbind at 1. unfold M_bind. rewrite Ho.
    rewrite deref_last.
    assert (Hp : heap (mkWorld (heap w ++ [d])%list (clock_ms w) (wire w))
                   !! List.length (heap w) = Some d).
    { cbn [heap]. rewrite lookup_app_r by reflexivity. now rewrite Nat.sub_diag. }
    rewrite bind_mret_snd.
    exact (executor_wire client POST "/fapi/v1/order" _ true _ d Hp).
  - unfold built_params, place_order, mbind, M_bind. rewrite Ho. split; reflexivity.
Qed.


(** Through the validators the price is a float, and the entry reads
    [50000.0]. *)
Remark limit_order_params_after_validation (w : World) :
  (o ← cli_validate "BTCUSDT" "BUY" "LIMIT" "0.01" (Some "50000") "GTC" None;
   built_params (o_symbol o) (o_side o) (o_type o) (VFloat (o_quantity o))
     (of_optional (o_price o)) (o_tif o) (of_optional (o_stop_price o)) w)
  = Ok [("symbol", VStr "BTCUSDT"); ("side", VStr "BUY"); ("type", VStr "LIMIT");
        ("quantity", VStr "0.01"); ("price", VStr "50000.0"); ("timeInForce", VStr "GTC")].
Proof.
  replace (cli_validate "BTCUSDT" "BUY" "LIMIT" "0.01" (Some "50000") "GTC" None)
    with (Ok (mkOrder "BTCUSDT" "BUY" "LIMIT" float_0_01
                (Some (PyFloat.of_decimal false 50000 0)) "GTC" None))
    by (vm_compute; reflexivity).
  cbn [mbind result_bind o_symbol o_side o_type o_quantity o_price o_tif o_stop_price
       of_optional].
  rewrite built_params_eq. vm_compute. reflexivity.
Qed.

End PlaceOrder.

(* ===================================================================== *)
(** * The validators *)
(* ===================================================================== *)

(** Closes an equivalence between the outcome of a validator and its
    description once the parse and the guard have been split by cases. *)
Ltac settle_validator Ey E :=
  split;
  [ intros H; try discriminate H; injection H as <-; eauto
  | intros [s' [Hs [Hx Hl]]]; try discriminate Hs;
    injection Hs as <-; rewrite Ey in Hx; try discriminate Hx;
    injection Hx as <-; try (rewrite E in Hl; discriminate Hl); reflexivity ].

Section Validators.

Implicit Types (s : string) (q x : spec_float).

Lemma float_of_string_ok s x :
  PyFloat.of_string s = Some x -> Py.float (VStr s) = Ok x.
Proof. unfold Py.float. now intros ->. Qed.

Lemma float_of_string_error s :
  PyFloat.of_string s = None -> exists m, Py.float (VStr s) = Err (ValueError m).
Proof. unfold Py.float. intros ->. eauto. Qed.

(** Comparisons of floats: swapping the arguments flips the outcome, and
    only NaN is unordered. *)
Lemma compare_antisym x y : SFcompare y x = option_map CompOpp (SFcompare x y).
Proof.
  destruct x as [sx|sx| |sx mx ex], y as [sy|sy| |sy my ey];
    try destruct sx; try destruct sy; try reflexivity;
    unfold SFcompare, option_map; rewrite (Z.compare_antisym ex ey);
    destruct (ex ?= ey); cbn [CompOpp]; try reflexivity;
    rewrite <- (Pos.compare_cont_antisym _ _ Eq); cbn [CompOpp];
    try reflexivity;
    now destruct (Pos.compare_cont Eq mx my).
Qed.

Lemma compare_unordered x y : SFcompare x y = None <-> x = S754_nan \/ y = S754_nan.
Proof.
  destruct x as [sx|sx| |sx mx ex], y as [sy|sy| |sy my ey];
    try destruct sx; try destruct sy; unfold SFcompare;
    split; intros H; try discriminate; try tauto;
    destruct H as [H|H]; discriminate.
Qed.

(** [not (x <= y)] holds when [y < x] and when [x] is NaN. *)
Lemma leb_false x y :
  y <> S754_nan ->
  (PyFloat.leb x y = false <-> PyFloat.ltb y x = true \/ x = S754_nan).
Proof.
  intros Hy. unfold PyFloat.leb, PyFloat.ltb, SFleb, SFltb.
  rewrite (compare_antisym x y).
  destruct (SFcompare x y) as [[| |]|] eqn:E; cbn [option_map CompOpp];
    split; try tauto; try discriminate.
  - intros [H|H]; [discriminate|]. subst x. discriminate.
  - intros [H|H]; [discriminate|]. subst x. discriminate.
  - intros _. right. apply compare_unordered in E. tauto.
Qed.

(** [not (x > y)] holds when [x <= y] and when [x] is NaN. *)
Lemma gtb_false x y :
  y <> S754_nan ->
  (PyFloat.gtb x y = false <-> PyFloat.leb x y = true \/ x = S754_nan).
Proof.
  intros Hy. unfold PyFloat.gtb, PyFloat.leb, SFleb, SFltb.
  rewrite (compare_antisym x y).
  destruct (SFcompare x y) as [[| |]|] eqn:E; cbn [option_map CompOpp];
    split; try tauto; try discriminate.
  - intros [H|H]; [discriminate|]. subst x. discriminate.
  - intros _. right. apply compare_unordered in E. tauto.
Qed.

Lemma zero_not_nan : PyFloat.round_Z 0 <> S754_nan.
Proof. discriminate. Qed.

Lemma million_not_nan : PyFloat.round_Z 1000000 <> S754_nan.
Proof. intros H. vm_compute in H. discriminate. Qed.

(** The two guards of [validate_quantity] are the negations of the range
    test on every float but NaN, which passes both guards. *)
Lemma le_zero_false x :
  PyFloat.le_int x 0 = false <-> positive x = true \/ x = S754_nan.
Proof. apply leb_false, zero_not_nan. Qed.

Lemma gt_million_false x :
  PyFloat.gt_int x 1000000 = false
  <-> PyFloat.leb x (PyFloat.round_Z 1000000) = true \/ x = S754_nan.
Proof. apply gtb_false, million_not_nan. Qed.

(** [validate_quantity] returns [q] exactly when [float] reads [q] and
    neither guard fires. *)
Lemma validate_quantity_ok s q :
  validate_quantity s = Ok q
  <-> PyFloat.of_string s = Some q
      /\ PyFloat.le_int q 0 = false /\ PyFloat.gt_int q 1000000 = false.
Proof.
  unfold validate_quantity, Py.float.
  destruct (PyFloat.of_string s) as [x|]; cbn [try_except mbind result_bind].
  - destruct (PyFloat.le_int x 0) eqn:E1.
    { split; [discriminate|]. intros [H [H1 _]]. injection H as <-. congruence. }
    destruct (PyFloat.gt_int x 1000000) eqn:E2.
    { split; [discriminate|]. intros [H [_ H2]]. injection H as <-. congruence. }
    split.
    + intros H. injection H as <-. auto.
    + intros [H _]. now injection H as <-.
  - cbn. split; [discriminate|intros [H _]; discriminate].
Qed.

(** For every input that is not read as NaN, the claim C4 holds: the value
    is returned exactly when it lies in the range. *)
Lemma validate_quantity_range s q :
  q <> S754_nan ->
  (validate_quantity s = Ok q
   <-> PyFloat.of_string s = Some q /\ in_quantity_range q = true).
Proof.
  intros Hn. rewrite validate_quantity_ok, le_zero_false, gt_million_false.
  unfold in_quantity_range, positive. rewrite andb_true_iff. tauto.
Qed.

(** Every failure of [validate_quantity] names the quantity field. *)
Lemma validate_quantity_error s e :
  validate_quantity s = Err e -> exists m, e = BadParameter m "--quantity".
Proof.
  unfold validate_quantity, Py.float.
  destruct (PyFloat.of_string s) as [x|]; cbn.
  - destruct (PyFloat.le_int x 0); [intros H; injection H as <-; eauto|].
    destruct (PyFloat.gt_int x 1000000); [intros H; injection H as <-; eauto|].
    discriminate.
  - intros H; injection H as <-; eauto.
Qed.

(** The boundary cases that the specification lists. *)
Example validate_quantity_boundaries :
  (exists m, validate_quantity "0" = Err (BadParameter m "--quantity"))
  /\ (exists m, validate_quantity "-1" = Err (BadParameter m "--quantity"))
  /\ (exists m, validate_quantity "1000000.000001" = Err (BadParameter m "--quantity"))
  /\ validate_quantity "1000000" = Ok (PyFloat.round_Z 1000000)
  /\ validate_quantity "0.00000001" = Ok (PyFloat.of_decimal false 1 (-8)).
Proof.
  repeat split; try (eexists; vm_compute; reflexivity); vm_compute; reflexivity.
Qed.

(** C4, at the input where the code departs from it.  The string [nan] is
    read by [float] as NaN, which is neither [<= 0] nor [> 1_000_000]:
    [validate_quantity] returns NaN although NaN does not satisfy
    [0 < q <= 1_000_000]. *)
Theorem validate_quantity_accepts_nan :
  validate_quantity "nan" = Ok S754_nan
  /\ in_quantity_range S754_nan = false.
Proof. split; vm_compute; reflexivity. Qed.

(** ** The price *)

Lemma validate_price_forbidden (price : option string) (order_type : string) :
  order_type = "MARKET" \/ order_type = "STOP_MARKET" ->
  validate_price price order_type
  = match price with
    | Some _ =>
        Err (BadParameter
               ("Price must not be specified for " ++ order_type ++ " orders. "
                ++ "Remove the --price flag.") "--price")
    | None => Ok None
    end.
Proof. intros [-> | ->]; reflexivity. Qed.

Lemma validate_price_required_ok (price : option string) (order_type : string) x :
  order_type = "LIMIT" \/ order_type = "STOP_LIMIT" ->
  (validate_price price order_type = Ok (Some x)
   <-> exists s, price = Some s /\ PyFloat.of_string s = Some x
                 /\ PyFloat.le_int x 0 = false).
Proof.
  intros Hty.
  assert (Hm : PyStr.mem order_type ["MARKET"; "STOP_MARKET"] = false)
    by (destruct Hty as [-> | ->]; reflexivity).
  unfold validate_price. rewrite Hm.
  destruct price as [s|];
    [|split; [discriminate|intros [s' [Hs _]]; discriminate Hs]].
  unfold Py.float. destruct (PyFloat.of_string s) as [y|] eqn:Ey;
    cbn [try_except mbind result_bind].
  - destruct (PyFloat.le_int y 0) eqn:E; settle_validator Ey E.
  - cbn. settle_validator Ey Ey.
Qed.

Lemma validate_price_required_some (price : option string) (order_type : string) :
  order_type = "LIMIT" \/ order_type = "STOP_LIMIT" ->
  validate_price price order_type <> Ok None.
Proof.
  intros Hty.
  assert (Hm : PyStr.mem order_type ["MARKET"; "STOP_MARKET"] = false)
    by (destruct Hty as [-> | ->]; reflexivity).
  unfold validate_price. rewrite Hm.
  destruct price as [s|]; [|discriminate].
  unfold Py.float. destruct (PyFloat.of_string s) as [y|];
    cbn [try_except mbind result_bind]; [|cbn; discriminate].
  destruct (PyFloat.le_int y 0); discriminate.
Qed.

Lemma validate_price_error (price : option string) (order_type : string) e :
  validate_price price order_type = Err e -> exists m, e = BadParameter m "--price".
Proof.
  unfold validate_price.
  destruct (PyStr.mem order_type ["MARKET"; "STOP_MARKET"]).
  - destruct price; [intros H; injection H as <-; eauto|discriminate].
  - destruct price as [s|]; [|intros H; injection H as <-; eauto].
    unfold Py.float. destruct (PyFloat.of_string s) as [y|]; cbn.
    + destruct (PyFloat.le_int y 0); [intros H; injection H as <-; eauto|discriminate].
    + intros H; injection H as <-; eauto.
Qed.

(** C5, at the input where the code departs from it.  For LIMIT, and for
    STOP_LIMIT checked as LIMIT, the price [nan] is read as NaN, for which
    [parsed_price <= 0] is false: [validate_price] returns NaN although NaN
    is not strictly greater than 0. *)
Theorem validate_price_accepts_nan :
  validate_price (Some "nan") "LIMIT" = Ok (Some S754_nan)
  /\ validate_price (Some "nan") "STOP_LIMIT" = Ok (Some S754_nan)
  /\ positive S754_nan = false.
Proof. repeat split; vm_compute; reflexivity. Qed.

(** ** The stop price *)

Lemma validate_stop_price_not_needed (stop_price : option string) (order_type : string) :
  PyStr.mem order_type ["STOP_MARKET"; "STOP_LIMIT"] = false ->
  _validate_stop_price stop_price order_type = Ok None.
Proof. unfold _validate_stop_price. now intros ->. Qed.

Lemma validate_stop_price_ok (stop_price : option string) (order_type : string) x :
  order_type = "STOP_MARKET" \/ order_type = "STOP_LIMIT" ->
  (_validate_stop_price stop_price order_type = Ok (Some x)
   <-> exists s, stop_price = Some s /\ PyFloat.of_string s = Some x
                 /\ PyFloat.le_int x 0 = false).
Proof.
  intros Hty.
  assert (Hm : PyStr.mem order_type ["STOP_MARKET"; "STOP_LIMIT"] = true)
    by (destruct Hty as [-> | ->]; reflexivity).
  unfold _validate_stop_price. rewrite Hm. cbn [negb].
  destruct stop_price as [s|];
    [|split; [discriminate|intros [s' [Hs _]]; discriminate Hs]].
  unfold Py.float. destruct (PyFloat.of_string s) as [y|] eqn:Ey;
    cbn [try_except mbind result_bind].
  - destruct (PyFloat.le_int y 0) eqn:E; cbn; settle_validator Ey E.
  - cbn. settle_validator Ey Ey.
Qed.

Lemma validate_stop_price_some (stop_price : option string) (order_type : string) :
  order_type = "STOP_MARKET" \/ order_type = "STOP_LIMIT" ->
  _validate_stop_price stop_price order_type <> Ok None.
Proof.
  intros Hty.
  assert (Hm : PyStr.mem order_type ["STOP_MARKET"; "STOP_LIMIT"] = true)
    by (destruct Hty as [-> | ->]; reflexivity).
  unfold _validate_stop_price. rewrite Hm. cbn [negb].
  destruct stop_price as [s|]; [|discriminate].
  unfold Py.float. destruct (PyFloat.of_string s) as [y|];
    cbn [try_except mbind result_bind]; [|cbn; discriminate].
  destruct (PyFloat.le_int y 0); cbn; discriminate.
Qed.

(** The web view on a stop price given as text. *)
Lemma api_stop_price_not_needed (raw_stop : value) (order_type : string) :
  PyStr.mem order_type ["STOP_MARKET"; "STOP_LIMIT"] = false ->
  api_stop_price raw_stop order_type = Ok (Proceed None).
Proof. unfold api_stop_price. now intros ->. Qed.

Lemma api_stop_price_text (s : string) (order_type : string) x :
  order_type = "STOP_MARKET" \/ order_type = "STOP_LIMIT" ->
  PyFloat.of_string s = Some x ->
  api_stop_price (VStr s) order_type
  = if PyFloat.le_int x 0 then Ok (Respond "stop_price must be a positive number." 400)
    else Ok (Proceed (Some x)).
Proof.
  intros Hty Hx.
  assert (Hm : PyStr.mem order_type ["STOP_MARKET"; "STOP_LIMIT"] = true)
    by (destruct Hty as [-> | ->]; reflexivity).
  unfold api_stop_price. rewrite Hm. cbn [is_None Py.float]. rewrite Hx.
  reflexivity.
Qed.

Lemma validate_stop_price_error (stop_price : option string) (order_type : string) e :
  _validate_stop_price stop_price order_type = Err e ->
  exists m, e = BadParameter m "--stop-price".
Proof.
  unfold _validate_stop_price.
  destruct (PyStr.mem order_type ["STOP_MARKET"; "STOP_LIMIT"]); cbn [negb]; [|discriminate].
  destruct stop_price as [s|]; [|intros H; injection H as <-; eauto].
  unfold Py.float. destruct (PyFloat.of_string s) as [y|]; cbn.
  - destruct (PyFloat.le_int y 0); cbn; [intros H; injection H as <-; eauto|discriminate].
  - intros H; injection H as <-; eauto.
Qed.

(** C6, at the input where the code departs from it.  For STOP_MARKET and
    STOP_LIMIT the stop price [nan] is read as NaN, for which
    [parsed <= 0] is false: both the command line and the web view go on
    with NaN although NaN is not strictly greater than 0. *)
Theorem stop_price_accepts_nan :
  _validate_stop_price (Some "nan") "STOP_MARKET" = Ok (Some S754_nan)
  /\ _validate_stop_price (Some "nan") "STOP_LIMIT" = Ok (Some S754_nan)
  /\ api_stop_price (VStr "nan") "STOP_MARKET" = Ok (Proceed (Some S754_nan))
  /\ api_stop_price (VStr "nan") "STOP_LIMIT" = Ok (Proceed (Some S754_nan))
  /\ positive S754_nan = false.
Proof. repeat split; vm_compute; reflexivity. Qed.

End Validators.

(* ===================================================================== *)
(** * Account balance *)
(* ===================================================================== *)

Section AccountBalance.

Variable self : BinanceFuturesClient.

Lemma positive_balances_filter (assets : list value) :
  Forall balance_entry assets ->
  positive_balances assets = Ok (List.filter has_positive_balance assets).
Proof.
  induction 1 as [|asset rest [x Hx] _ IH]; [reflexivity|].
  cbn [positive_balances List.filter]. unfold has_positive_balance.
  unfold wallet_balance in Hx |- *.
  destruct (Py.get asset "walletBalance" (VInt 0)) as [b|e]; [|discriminate Hx].
  cbn [mbind result_bind] in Hx |- *. rewrite Hx. cbn [mbind result_bind].
  rewrite IH. cbn [mbind result_bind mret result_ret].
  reflexivity.
Qed.

(** Whenever the comprehension returns at all, it returns the filter. *)
Lemma positive_balances_sound (assets kept : list value) :
  positive_balances assets = Ok kept ->
  Forall balance_entry assets /\ kept = List.filter has_positive_balance assets.
Proof.
  revert kept. induction assets as [|asset rest IH]; intros kept H.
  - injection H as <-. split; [constructor|reflexivity].
  - cbn [positive_balances] in H.
    destruct (Py.get asset "walletBalance" (VInt 0)) as [b|e] eqn:Eb; [|discriminate H].
    cbn [mbind result_bind] in H.
    destruct (Py.float b) as [x|e] eqn:Ex; [|discriminate H].
    cbn [mbind result_bind] in H.
    destruct (positive_balances rest) as [k|e] eqn:Er; [|discriminate H].
    cbn [mbind result_bind mret result_ret] in H. injection H as <-.
    destruct (IH k eq_refl) as [Hall ->].
    assert (Hw : wallet_balance asset = Ok x).
    { unfold wallet_balance. rewrite Eb. exact Ex. }
    split.
    + constructor; [now exists x|exact Hall].
    + cbn [List.filter]. unfold has_positive_balance. now rewrite Hw.
Qed.

(** C7.  When the account request returns a body whose [assets] are balance
    entries, [get_account_balance] returns exactly the entries whose wallet
    balance is strictly greater than zero, in the order of the response. *)
Theorem account_balance_keeps_positive (w : World) (data : value) (assets : list value) :
  fst (get self "/fapi/v2/account" None true w) = Ok data ->
  Py.get data "assets" (VList []) = Ok (VList assets) ->
  Forall balance_entry assets ->
  fst (get_account_balance self w) = Ok (List.filter has_positive_balance assets).
Proof.
  intros Hget Hassets Hall. unfold get_account_balance.
  unfold mbind at 1. unfold M_bind.
  destruct (get self "/fapi/v2/account" None true w) as [r w'].
  cbn [fst] in Hget. subst r.
  unfold mbind, M_bind, lift. rewrite Hassets. cbn [Py.iter].
  now rewrite positive_balances_filter.
Qed.

(** Whenever [get_account_balance] returns, whatever the body was, the
    result is that filter of the entries of the body. *)
Lemma account_balance_sound (w : World) (kept : list value) :
  fst (get_account_balance self w) = Ok kept ->
  exists data entries,
    fst (get self "/fapi/v2/account" None true w) = Ok data
    /\ (assets ← Py.get data "assets" (VList []); Py.iter assets) = Ok entries
    /\ Forall balance_entry entries
    /\ kept = List.filter has_positive_balance entries.
Proof.
  unfold get_account_balance. unfold mbind at 1. unfold M_bind.
  destruct (get self "/fapi/v2/account" None true w) as [[data|e] w']; [|discriminate].
  unfold mbind, M_bind, result_bind, lift.
  destruct (Py.get data "assets" (VList [])) as [assets|e] eqn:Ea; [|discriminate].
  destruct (Py.iter assets) as [entries|e] eqn:Ei; [|discriminate].
  cbn [fst]. intros H. apply positive_balances_sound in H as [Hall ->].
  exists data, entries. rewrite Ea. auto.
Qed.

End AccountBalance.

Lemma account_balance_keeps_positive_witness :
  (fst (get account_client "/fapi/v2/account" None true empty_world) = Ok account_body
   /\ Py.get account_body "assets" (VList []) = Ok (VList [usdt_entry; bnb_entry])
   /\ Forall balance_entry [usdt_entry; bnb_entry])
  /\ fst (get_account_balance account_client empty_world) = Ok [bnb_entry].
Proof.
  assert (H1 : fst (get account_client "/fapi/v2/account" None true empty_world)
               = Ok account_body) by (vm_compute; reflexivity).
  assert (H2 : Py.get account_body "assets" (VList []) = Ok (VList [usdt_entry; bnb_entry]))
    by reflexivity.
  assert (H3 : Forall balance_entry [usdt_entry; bnb_entry]).
  { repeat constructor; eexists; vm_compute; reflexivity. }
  split; [auto|].
  rewrite (account_balance_keeps_positive account_client empty_world account_body
             [usdt_entry; bnb_entry] H1 H2 H3).
  vm_compute. reflexivity.
Defined.

(* ===================================================================== *)
(** * Exchange information *)
(* ===================================================================== *)

Section ExchangeInfo.

Variable self : BinanceFuturesClient.

Lemma scan_symbols_find (entries : list value) (target : string) :
  Forall is_object entries ->
  scan_symbols entries target = Ok (List.find (symbol_is target) entries).
Proof.
  induction 1 as [|entry rest [d ->] _ IH]; [reflexivity|].
  cbn [scan_symbols List.find symbol_is Py.get mbind result_bind].
  destruct (PyDict.get d "symbol") as [s|]; cbn [default].
  - destruct (Py.eq_str s target); [reflexivity|exact IH].
  - cbn [Py.eq_str]. exact IH.
Qed.

Lemma find_none_forall {A} (f : A -> bool) (l : list A) :
  List.find f l = None <-> Forall (fun x => f x = false) l.
Proof.
  induction l as [|x l IH]; cbn [List.find].
  - split; [constructor|reflexivity].
  - destruct (f x) eqn:E.
    + split; [discriminate|]. intros H. inversion H; subst. congruence.
    + rewrite IH. split; [now constructor|]. intros H. now inversion H.
Qed.

(** C8, as the code has it.  When the exchange information is a body whose
    [symbols] are objects, [get_exchange_info] returns the first entry whose
    [symbol] field equals the upper-cased query, and raises the
    symbol-not-found error exactly when no entry has that field equal to the
    upper-cased query. *)
Theorem exchange_info_finds_uppercased_query
    (symbol : string) (w : World) (data : value) (entries : list value) :
  fst (get self "/fapi/v1/exchangeInfo" None false w) = Ok data ->
  Py.get data "symbols" (VList []) = Ok (VList entries) ->
  Forall is_object entries ->
  fst (get_exchange_info self symbol w)
  = match List.find (symbol_is (PyStr.upper symbol)) entries with
    | Some entry => Ok entry
    | None => Err (symbol_not_found symbol)
    end
  /\ (fst (get_exchange_info self symbol w) = Err (symbol_not_found symbol)
      <-> Forall (fun entry => symbol_is (PyStr.upper symbol) entry = false) entries).
Proof.
  intros Hget Hsymbols Hall.
  assert (Hrun : fst (get_exchange_info self symbol w)
                 = match List.find (symbol_is (PyStr.upper symbol)) entries with
                   | Some entry => Ok entry
                   | None => Err (symbol_not_found symbol)
                   end).
  { unfold get_exchange_info. unfold mbind at 1. unfold M_bind.
    destruct (get self "/fapi/v1/exchangeInfo" None false w) as [r w'].
    cbn [fst] in Hget. subst r.
    unfold mbind, M_bind, lift. rewrite Hsymbols. cbn [Py.iter].
    rewrite (scan_symbols_find _ _ Hall).
    now destruct (List.find _ entries). }
  split; [exact Hrun|].
  rewrite Hrun, <- find_none_forall.
  destruct (List.find _ entries); split; intros H; try discriminate; reflexivity.
Qed.

End ExchangeInfo.

Lemma exchange_info_finds_uppercased_query_witness :
  (fst (get lowercase_client "/fapi/v1/exchangeInfo" None false empty_world)
   = Ok lowercase_body
   /\ Py.get lowercase_body "symbols" (VList []) = Ok (VList [lowercase_entry])
   /\ Forall is_object [lowercase_entry])
  /\ fst (get_exchange_info lowercase_client "BTCUSDT" empty_world)
     = Err (symbol_not_found "BTCUSDT").
Proof.
  assert (H1 : fst (get lowercase_client "/fapi/v1/exchangeInfo" None false empty_world)
               = Ok lowercase_body) by reflexivity.
  assert (H2 : Py.get lowercase_body "symbols" (VList []) = Ok (VList [lowercase_entry]))
    by reflexivity.
  assert (H3 : Forall is_object [lowercase_entry]).
  { repeat constructor. now eexists. }
  split; [auto|].
  exact (proj1 (exchange_info_finds_uppercased_query lowercase_client "BTCUSDT"
                  empty_world lowercase_body [lowercase_entry] H1 H2 H3)).
Defined.

(** C8 as stated fails when the exchange lists a symbol that is not in upper
    case: the entry [btcusdt] matches the query [btcusdt] without regard to
    case (it is even equal to it), and the call raises symbol-not-found. *)
Lemma exchange_info_lowercase_counterexample :
  existsb (symbol_matches_ignoring_case "btcusdt") [lowercase_entry] = true
  /\ fst (get lowercase_client "/fapi/v1/exchangeInfo" None false empty_world)
     = Ok lowercase_body
  /\ fst (get_exchange_info lowercase_client "btcusdt" empty_world)
     = Err (symbol_not_found "btcusdt").
Proof. repeat split; reflexivity. Qed.

(* ===================================================================== *)
(** * The update time *)
(* ===================================================================== *)

Section UpdateTime.

Variable utc_time_string : spec_float -> result string.

(** The view of the web front end never fails on the update time: any
    exception of the conversion is replaced by the raw value. *)
Lemma add_update_time_human_total (d : dict) :
  exists human,
    add_update_time_human utc_time_string (VDict d)
    = Ok (VDict (PyDict.set d "updateTimeHuman" (VStr human)))
    /\ (forall e,
          time_string utc_time_string (default (VInt 0) (PyDict.get d "updateTime")) = Err e ->
          human = Py.str (default (VInt 0) (PyDict.get d "updateTime"))).
Proof.
  unfold add_update_time_human. cbn [Py.get mbind result_bind].
  set (ms := default (VInt 0) (PyDict.get d "updateTime")).
  replace (match PyDict.get d "updateTime" with Some v => v | None => VInt 0 end) with ms
    by (unfold ms; now destruct (PyDict.get d "updateTime")).
  destruct (time_string utc_time_string ms) as [s|e] eqn:E;
    cbn [try_except any_exception mbind result_bind].
  - exists s. split; [reflexivity|discriminate].
  - exists (Py.str ms). split; [reflexivity|reflexivity].
Qed.

(** [format_order_result] returns when the update time is a number and the
    conversion raises nothing but [OSError], [OverflowError] or
    [ValueError]. *)
Lemma format_order_result_number (d : dict) :
  (forall t e, utc_time_string t = Err e -> conversion_errors e = true) ->
  is_number (default (VInt 0) (PyDict.get d "updateTime")) = true ->
  exists out, format_order_result utc_time_string (VDict d) = Ok out.
Proof.
  intros Hlib Hnum. unfold format_order_result.
  cbn [Py.get mbind result_bind].
  set (ms := match PyDict.get d "updateTime" with Some v => v | None => VInt 0 end).
  assert (Hms : is_number ms = true)
    by (unfold ms; now destruct (PyDict.get d "updateTime")).
  assert (Ht : exists s, try_except (time_string utc_time_string ms) conversion_errors
                           (Ok (Py.str ms)) = Ok s).
  { destruct (time_string utc_time_string ms) as [s|e] eqn:E; cbn [try_except]; [eauto|].
    assert (He : conversion_errors e = true).
    { unfold time_string, Py.truediv_int in E.
      destruct ms; try discriminate Hms.
      - destruct (PyFloat.int_truediv _ 1000); cbn [mbind result_bind] in E;
          [eapply Hlib; eassumption|now injection E as <-].
      - destruct (PyFloat.int_truediv z 1000); cbn [mbind result_bind] in E;
          [eapply Hlib; eassumption|now injection E as <-].
      - cbn [mbind result_bind] in E. eapply Hlib; eassumption. }
    rewrite He. eauto. }
  destruct Ht as [s ->]. cbn [mbind result_bind mret result_ret]. eauto.
Qed.

(** C9, at the input where the code departs from it.  For an order whose
    update time is text or null, the division by 1000 raises [TypeError],
    which [format_order_result] does not catch: the call fails, for every
    behaviour of the time conversion, where the web view falls back to the
    raw value. *)
Theorem format_order_result_fails_on_text_time :
  format_order_result utc_time_string text_time_order = Err TypeError
  /\ format_order_result utc_time_string null_time_order = Err TypeError
  /\ add_update_time_human utc_time_string text_time_order
     = Ok (VDict [("orderId", VInt 7); ("updateTime", VStr "1700000000000");
                  ("updateTimeHuman", VStr "1700000000000")])
  /\ add_update_time_human utc_time_string null_time_order
     = Ok (VDict [("orderId", VInt 7); ("updateTime", VNone);
                  ("updateTimeHuman", VStr "None")]).
Proof. repeat split; reflexivity. Qed.

End UpdateTime.

(* ===================================================================== *)
(** * What the log shows of the parameters *)
(* ===================================================================== *)

Section MaskParams.

Implicit Types (d : dict) (k : string) (v : value).

Lemma dict_keys_set_present d k v :
  PyDict.has d k = true -> PyDict.keys (PyDict.set d k v) = PyDict.keys d.
Proof.
  unfold PyDict.has, PyDict.keys.
  induction d as [|[k0 v0] d IH]; cbn [PyDict.get PyDict.set List.map fst]; [discriminate|].
  destruct (String.eqb k0 k); [reflexivity|].
  intros H. cbn [List.map fst]. now rewrite IH.
Qed.

Lemma dict_set_set d k v v' :
  PyDict.set (PyDict.set d k v) k v' = PyDict.set d k v'.
Proof.
  induction d as [|[k0 v0] d IH]; cbn [PyDict.set].
  - now rewrite String.eqb_refl.
  - destruct (String.eqb k0 k) eqn:E; cbn [PyDict.set]; rewrite E; [reflexivity|].
    now rewrite IH.
Qed.

(** X1.  [_mask_params] keeps the keys and their order, keeps every value but
    that of [signature], shows [***] for a [signature] that is present and
    adds none that is absent; masking twice is masking once; and of a signed
    dictionary the mask still shows the [timestamp] but not the signature. *)
Theorem mask_params_hides_signature d :
  PyDict.keys (_mask_params d) = PyDict.keys d
  /\ (forall k, k <> "signature" -> PyDict.get (_mask_params d) k = PyDict.get d k)
  /\ PyDict.get (_mask_params d) "signature"
     = (if PyDict.has d "signature" then Some (VStr "***") else None)
  /\ _mask_params (_mask_params d) = _mask_params d
  /\ (forall secret now,
        PyDict.get (_mask_params (signed secret now d)) "signature" = Some (VStr "***")
        /\ PyDict.get (_mask_params (signed secret now d)) "timestamp" = Some (VInt now)).
Proof.
  unfold _mask_params.
  destruct (PyDict.has d "signature") eqn:E.
  - assert (E' : PyDict.has (PyDict.set d "signature" (VStr "***")) "signature" = true).
    { unfold PyDict.has. now rewrite dict_get_set_eq. }
    rewrite E'. split; [|split; [|split; [|split]]].
    + now apply dict_keys_set_present.
    + intros k Hk. apply dict_get_set_ne. congruence.
    + apply dict_get_set_eq.
    + apply dict_set_set.
    + intros secret now.
      assert (Hs : PyDict.has (signed secret now d) "signature" = true).
      { unfold PyDict.has, signed. now rewrite dict_get_set_eq. }
      rewrite Hs. split; [apply dict_get_set_eq|].
      rewrite dict_get_set_ne by discriminate. apply signed_get_timestamp.
  - rewrite E. split; [|split; [|split; [|split]]]; try reflexivity.
    + unfold PyDict.has in E. now destruct (PyDict.get d "signature").
    + intros secret now.
      assert (Hs : PyDict.has (signed secret now d) "signature" = true).
      { unfold PyDict.has, signed. now rewrite dict_get_set_eq. }
      rewrite Hs. split; [apply dict_get_set_eq|].
      rewrite dict_get_set_ne by discriminate. apply signed_get_timestamp.
Qed.

End MaskParams.

(* ===================================================================== *)
(** * Symbol, side, order type and time in force *)
(* ===================================================================== *)

Section Normalisers.

Import PyStr.

Lemma mem_In (x : string) (l : list string) : mem x l = true -> In x l.
Proof.
  induction l as [|y l IH]; cbn [mem]; [discriminate|].
  destruct (String.eqb x y) eqn:E; cbn [orb].
  - apply String.eqb_eq in E. subst. now left.
  - intros H. right. now apply IH.
Qed.

Lemma upper_letter_not_space (c : ascii) : is_upper c = true -> is_space c = false.
Proof.
  unfold is_upper, is_space. intros H.
  apply andb_true_iff in H as [H1 H2]. apply Z.leb_le in H1, H2.
  apply orb_false_iff. split; apply andb_false_iff; right; apply Z.leb_gt; lia.
Qed.

Lemma upper_letter_fixed (c : ascii) : is_upper c = true -> upper_char c = c.
Proof.
  unfold is_upper, upper_char, is_lower. intros H.
  apply andb_true_iff in H as [H1 H2]. apply Z.leb_le in H1, H2.
  replace (97 <=? code c) with false by (symmetry; apply Z.leb_gt; lia).
  reflexivity.
Qed.

Lemma upper_fixed (t : string) : all_upper_letters t = true -> upper t = t.
Proof.
  unfold all_upper_letters, to_list.
  induction t as [|c t IH]; cbn [list_ascii_of_string forallb upper]; [reflexivity|].
  intros H. apply andb_true_iff in H as [Hc Ht].
  now rewrite (upper_letter_fixed c Hc), IH.
Qed.

Lemma lstrip_no_space (l : list ascii) :
  forallb (fun c => negb (is_space c)) l = true -> lstrip_list l = l.
Proof.
  destruct l as [|c l]; cbn [forallb lstrip_list]; [reflexivity|].
  intros H. apply andb_true_iff in H as [Hc _].
  now destruct (is_space c).
Qed.

Lemma forallb_rev {A} (f : A -> bool) (l : list A) :
  forallb f (rev l) = forallb f l.
Proof.
  induction l as [|x l IH]; [reflexivity|].
  cbn [rev forallb]. rewrite forallb_app, IH. cbn [forallb].
  rewrite andb_true_r. apply andb_comm.
Qed.

Lemma strip_fixed (t : string) : all_upper_letters t = true -> strip t = t.
Proof.
  unfold all_upper_letters, strip. intros H.
  assert (Hn : forallb (fun c => negb (is_space c)) (to_list t) = true).
  { apply forallb_forall. intros c Hc.
    rewrite forallb_forall in H. now rewrite (upper_letter_not_space c (H c Hc)). }
  rewrite (lstrip_no_space _ Hn).
  rewrite lstrip_no_space by (now rewrite forallb_rev).
  rewrite rev_involutive. apply string_of_list_ascii_of_string.
Qed.

(** X2.  [validate_symbol] returns the stripped, upper-cased input, which then is
    2 to 20 upper-case letters and is accepted unchanged when validated
    again; every failure names the symbol option. *)
Theorem validate_symbol_normal_form (s : string) :
  match validate_symbol s with
  | Ok t =>
      t = upper (strip s)
      /\ all_upper_letters t = true
      /\ (2 <= String.length t <= 20)%nat
      /\ validate_symbol t = Ok t
  | Err e => exists m, e = BadParameter m "--symbol"
  end.
Proof.
  unfold validate_symbol at 1.
  destruct (matches_symbol_pattern (upper (strip s))) eqn:E; cbn [negb]; [|eauto].
  pose proof E as E0. unfold matches_symbol_pattern in E.
  apply andb_true_iff in E as [E E3]. apply andb_true_iff in E as [E1 E2].
  apply Nat.leb_le in E2, E3.
  split; [reflexivity|]. split; [exact E1|]. split; [lia|].
  unfold validate_symbol. rewrite (strip_fixed _ E1), (upper_fixed _ E1), E0.
  reflexivity.
Qed.

(** X3.  [validate_side] returns [BUY] or [SELL], the stripped, upper-cased input,
    which is accepted unchanged when validated again; every failure names
    the side option. *)
Theorem validate_side_range (s : string) :
  match validate_side s with
  | Ok t => t = upper (strip s) /\ (t = "BUY" \/ t = "SELL") /\ validate_side t = Ok t
  | Err e => exists m, e = BadParameter m "--side"
  end.
Proof.
  unfold validate_side at 1.
  destruct (mem (upper (strip s)) valid_sides) eqn:E; cbn [negb]; [|eauto].
  split; [reflexivity|].
  apply mem_In in E. cbn [In valid_sides] in E.
  destruct E as [<- | [<- | []]]; split; auto; reflexivity.
Qed.

(** X4.  [validate_order_type] returns one of the four order types, the stripped,
    upper-cased input, accepted unchanged when validated again; every failure
    names the type option. *)
Theorem validate_order_type_range (s : string) :
  match validate_order_type s with
  | Ok t => t = upper (strip s) /\ In t valid_types /\ validate_order_type t = Ok t
  | Err e => exists m, e = BadParameter m "--type"
  end.
Proof.
  unfold validate_order_type at 1.
  destruct (mem (upper (strip s)) valid_types) eqn:E; cbn [negb]; [|eauto].
  split; [reflexivity|].
  apply mem_In in E. split; [exact E|].
  cbn [In valid_types] in E.
  destruct E as [<- | [<- | [<- | [<- | []]]]]; reflexivity.
Qed.

(** X5.  [validate_time_in_force] returns [GTC], [IOC] or [FOK]: [GTC] for the
    empty string and the stripped, upper-cased input otherwise, accepted
    unchanged when validated again; every failure names the tif option. *)
Theorem validate_time_in_force_range (s : string) :
  match validate_time_in_force s with
  | Ok t =>
      In t valid_tif
      /\ (if String.eqb s "" then t = "GTC" else t = upper (strip s))
      /\ validate_time_in_force t = Ok t
  | Err e => s <> "" /\ exists m, e = BadParameter m "--tif"
  end.
Proof.
  unfold validate_time_in_force at 1.
  destruct (String.eqb s "") eqn:Es.
  - split; [cbn; auto|]. split; reflexivity.
  - destruct (mem (upper (strip s)) valid_tif) eqn:E; cbn [negb].
    + apply mem_In in E. split; [exact E|]. split; [reflexivity|].
      cbn [In valid_tif] in E.
      destruct E as [<- | [<- | [<- | []]]]; reflexivity.
    + split; [|eauto]. now apply String.eqb_neq.
Qed.

End Normalisers.

(* ===================================================================== *)
(** * The validation of an order, from the command line and from the web *)
(* ===================================================================== *)

Section OrderValidation.

Lemma result_bind_ok {A B} (r : result A) (f : A -> result B) (b : B) :
  (r ≫= f) = Ok b -> exists a, r = Ok a /\ f a = Ok b.
Proof. destruct r as [a|e]; [eauto|discriminate]. Qed.

Lemma validate_symbol_inv s t :
  validate_symbol s = Ok t -> matches_symbol_pattern t = true.
Proof.
  unfold validate_symbol.
  destruct (matches_symbol_pattern _) eqn:E; cbn [negb]; [|discriminate].
  now intros [= <-].
Qed.

Lemma validate_side_inv s t : validate_side s = Ok t -> In t valid_sides.
Proof.
  unfold validate_side.
  destruct (PyStr.mem _ valid_sides) eqn:E; cbn [negb]; [|discriminate].
  intros [= <-]. now apply mem_In.
Qed.

Lemma validate_order_type_inv s t : validate_order_type s = Ok t -> In t valid_types.
Proof.
  unfold validate_order_type.
  destruct (PyStr.mem _ valid_types) eqn:E; cbn [negb]; [|discriminate].
  intros [= <-]. now apply mem_In.
Qed.

Lemma validate_time_in_force_inv s t : validate_time_in_force s = Ok t -> In t valid_tif.
Proof.
  unfold validate_time_in_force.
  destruct (String.eqb s ""); [intros [= <-]; cbn; auto|].
  destruct (PyStr.mem _ valid_tif) eqn:E; cbn [negb]; [|discriminate].
  intros [= <-]. now apply mem_In.
Qed.

(** The price through [validate_price], by kind of order type. *)
Lemma validate_price_inv price ty pp :
  validate_price price ty = Ok pp ->
  (PyStr.mem ty ["MARKET"; "STOP_MARKET"] = true /\ price = None /\ pp = None)
  \/ (PyStr.mem ty ["MARKET"; "STOP_MARKET"] = false
      /\ exists s x, price = Some s /\ PyFloat.of_string s = Some x
                     /\ pp = Some x /\ PyFloat.le_int x 0 = false).
Proof.
  unfold validate_price.
  destruct (PyStr.mem ty ["MARKET"; "STOP_MARKET"]).
  - destruct price; [discriminate|]. intros [= <-]. auto.
  - destruct price as [s|]; [|discriminate].
    unfold Py.float. destruct (PyFloat.of_string s) as [y|] eqn:Ey;
      cbn [try_except mbind result_bind]; [|cbn; discriminate].
    destruct (PyFloat.le_int y 0) eqn:E; [discriminate|].
    intros [= <-]. right. split; [reflexivity|]. exists s, y. auto.
Qed.

(** The stop price through [_validate_stop_price]. *)
Lemma validate_stop_price_inv stop ty ps :
  _validate_stop_price stop ty = Ok ps ->
  (PyStr.mem ty ["STOP_MARKET"; "STOP_LIMIT"] = false /\ ps = None)
  \/ (PyStr.mem ty ["STOP_MARKET"; "STOP_LIMIT"] = true
      /\ exists s y, stop = Some s /\ PyFloat.of_string s = Some y
                     /\ ps = Some y /\ PyFloat.le_int y 0 = false).
Proof.
  unfold _validate_stop_price.
  destruct (PyStr.mem ty ["STOP_MARKET"; "STOP_LIMIT"]); cbn [negb].
  - destruct stop as [s|]; [|discriminate].
    unfold Py.float. destruct (PyFloat.of_string s) as [y|] eqn:Ey;
      cbn [try_except mbind result_bind]; [|cbn; discriminate].
    destruct (PyFloat.le_int y 0) eqn:E; cbn; [discriminate|].
    intros [= <-]. right. split; [reflexivity|]. exists s, y. auto.
  - intros [= <-]. auto.
Qed.

(** The stop price through the web view. *)
Lemma api_stop_price_inv raw ty ps :
  api_stop_price raw ty = Ok (Proceed ps) ->
  (PyStr.mem ty ["STOP_MARKET"; "STOP_LIMIT"] = false /\ ps = None)
  \/ (PyStr.mem ty ["STOP_MARKET"; "STOP_LIMIT"] = true
      /\ exists y, Py.float raw = Ok y /\ ps = Some y /\ PyFloat.le_int y 0 = false).
Proof.
  unfold api_stop_price.
  destruct (PyStr.mem ty ["STOP_MARKET"; "STOP_LIMIT"]).
  - destruct (is_None raw); [discriminate|].
    destruct (Py.float raw) as [y|e]; cbn [mbind result_bind]; [|discriminate].
    destruct (PyFloat.le_int y 0) eqn:E; [discriminate|].
    intros [= <-]. right. split; [reflexivity|]. exists y. auto.
  - intros [= <-]. auto.
Qed.

(** The pieces of a validated order make a consistent order. *)
Lemma consistent_from_parts sy sd ot q pp tf ps price :
  matches_symbol_pattern sy = true ->
  In sd valid_sides -> In ot valid_types -> In tf valid_tif ->
  PyFloat.le_int q 0 = false -> PyFloat.gt_int q 1000000 = false ->
  validate_price price (if String.eqb ot "STOP_LIMIT" then "LIMIT" else ot) = Ok pp ->
  ((PyStr.mem ot ["STOP_MARKET"; "STOP_LIMIT"] = false /\ ps = None)
   \/ (PyStr.mem ot ["STOP_MARKET"; "STOP_LIMIT"] = true
       /\ exists y, ps = Some y /\ PyFloat.le_int y 0 = false)) ->
  consistent_order (mkOrder sy sd ot q pp tf ps).
Proof.
  intros Hsy Hsd Hot Htf Hq1 Hq2 Hp Hs.
  unfold consistent_order. cbn [o_symbol o_side o_type o_quantity o_price o_tif o_stop_price].
  repeat (split; [assumption|]).
  apply validate_price_inv in Hp.
  cbn [In valid_types] in Hot.
  destruct Hot as [<- | [<- | [<- | [<- | []]]]]; cbn in Hp, Hs.
  - left. destruct Hp as [[_ [_ ->]] | [Hp _]]; [|discriminate].
    destruct Hs as [[_ ->] | [Hs _]]; [auto|discriminate].
  - right; left. destruct Hp as [[Hp _] | [_ [s [x [_ [_ [-> Hx]]]]]]]; [discriminate|].
    destruct Hs as [[_ ->] | [Hs _]]; [eauto|discriminate].
  - right; right; left. destruct Hp as [[_ [_ ->]] | [Hp _]]; [|discriminate].
    destruct Hs as [[Hs _] | [_ [y [-> Hy]]]]; [discriminate|eauto].
  - right; right; right. destruct Hp as [[Hp _] | [_ [s [x [_ [_ [-> Hx]]]]]]]; [discriminate|].
    destruct Hs as [[Hs _] | [_ [y [-> Hy]]]]; [discriminate|eauto 10].
Qed.

Lemma price_type_eq ot :
  (if negb (String.eqb ot "STOP_LIMIT") then ot else "LIMIT")
  = (if String.eqb ot "STOP_LIMIT" then "LIMIT" else ot).
Proof. now destruct (String.eqb ot "STOP_LIMIT"). Qed.

Lemma cli_validate_inv symbol side order_type quantity price tif stop_price o :
  cli_validate symbol side order_type quantity price tif stop_price = Ok o ->
  exists sy sd ot q pp tf ps,
    o = mkOrder sy sd ot q pp tf ps
    /\ validate_symbol symbol = Ok sy /\ validate_side side = Ok sd
    /\ validate_order_type order_type = Ok ot /\ validate_quantity quantity = Ok q
    /\ validate_price price (if String.eqb ot "STOP_LIMIT" then "LIMIT" else ot) = Ok pp
    /\ validate_time_in_force tif = Ok tf
    /\ _validate_stop_price stop_price ot = Ok ps.
Proof.
  unfold cli_validate. intros H.
  apply result_bind_ok in H as [sy [H1 H]].
  apply result_bind_ok in H as [sd [H2 H]].
  apply result_bind_ok in H as [ot [H3 H]].
  apply result_bind_ok in H as [q [H4 H]].
  apply result_bind_ok in H as [pp [H5 H]].
  apply result_bind_ok in H as [tf [H6 H]].
  apply result_bind_ok in H as [ps [H7 H]].
  injection H as <-. rewrite price_type_eq in H5.
  exists sy, sd, ot, q, pp, tf, ps. auto 10.
Qed.

Lemma cli_validate_consistent_order symbol side order_type quantity price tif stop_price o :
  cli_validate symbol side order_type quantity price tif stop_price = Ok o ->
  consistent_order o.
Proof.
  intros H. apply cli_validate_inv in H
    as [sy [sd [ot [q [pp [tf [ps [-> [H1 [H2 [H3 [H4 [H5 [H6 H7]]]]]]]]]]]]]].
  apply validate_quantity_ok in H4 as [_ [Hq1 Hq2]].
  apply (consistent_from_parts sy sd ot q pp tf ps price);
    eauto using validate_symbol_inv, validate_side_inv, validate_order_type_inv,
      validate_time_in_force_inv.
  apply validate_stop_price_inv in H7.
  destruct H7 as [H7 | [Hm [s [y [_ [_ [-> Hy]]]]]]]; [auto|eauto].
Qed.

(** The options that a failure of the command-line validation can name. *)
Lemma validate_symbol_error s e :
  validate_symbol s = Err e -> exists m, e = BadParameter m "--symbol".
Proof.
  unfold validate_symbol. destruct (matches_symbol_pattern _); cbn [negb]; [discriminate|].
  intros [= <-]. eauto.
Qed.

Lemma validate_side_error s e :
  validate_side s = Err e -> exists m, e = BadParameter m "--side".
Proof.
  unfold validate_side. destruct (PyStr.mem _ valid_sides); cbn [negb]; [discriminate|].
  intros [= <-]. eauto.
Qed.

Lemma validate_order_type_error s e :
  validate_order_type s = Err e -> exists m, e = BadParameter m "--type".
Proof.
  unfold validate_order_type. destruct (PyStr.mem _ valid_types); cbn [negb]; [discriminate|].
  intros [= <-]. eauto.
Qed.

Lemma validate_time_in_force_error s e :
  validate_time_in_force s = Err e -> exists m, e = BadParameter m "--tif".
Proof.
  unfold validate_time_in_force. destruct (String.eqb s ""); [discriminate|].
  destruct (PyStr.mem _ valid_tif); cbn [negb]; [discriminate|].
  intros [= <-]. eauto.
Qed.

Lemma result_bind_err {A B} (r : result A) (f : A -> result B) (e : exn) :
  (r ≫= f) = Err e -> r = Err e \/ exists a, r = Ok a /\ f a = Err e.
Proof. destruct r as [a|e']; [eauto|intros [= <-]; auto]. Qed.

Lemma cli_validate_error symbol side order_type quantity price tif stop_price e :
  cli_validate symbol side order_type quantity price tif stop_price = Err e ->
  exists m hint,
    e = BadParameter m hint
    /\ In hint ["--symbol"; "--side"; "--type"; "--quantity"; "--price"; "--tif";
                "--stop-price"].
Proof.
  unfold cli_validate. intros H.
  apply result_bind_err in H as [H | [sy [_ H]]];
    [apply validate_symbol_error in H as [m ->]; exists m, "--symbol"; cbn; tauto|].
  apply result_bind_err in H as [H | [sd [_ H]]];
    [apply validate_side_error in H as [m ->]; exists m, "--side"; cbn; tauto|].
  apply result_bind_err in H as [H | [ot [_ H]]];
    [apply validate_order_type_error in H as [m ->]; exists m, "--type"; cbn; tauto|].
  apply result_bind_err in H as [H | [q [_ H]]];
    [apply validate_quantity_error in H as [m ->]; exists m, "--quantity"; cbn; tauto|].
  apply result_bind_err in H as [H | [pp [_ H]]];
    [apply validate_price_error in H as [m ->]; exists m, "--price"; cbn; tauto|].
  apply result_bind_err in H as [H | [tf [_ H]]];
    [apply validate_time_in_force_error in H as [m ->]; exists m, "--tif"; cbn; tauto|].
  apply result_bind_err in H as [H | [ps [_ H]]];
    [apply validate_stop_price_error in H as [m ->]; exists m, "--stop-price";
     cbn; tauto|].
  discriminate H.
Qed.

(** X6.  The validation of the [place-order] command is a gate: what it lets
    through is an order whose fields fit its type, and what it stops is
    always a [BadParameter] naming one of the seven options, so that the
    [except click.BadParameter] of the command catches every failure. *)
Theorem cli_validate_is_a_gate
    (symbol side order_type quantity : string) (price : option string) (tif : string)
    (stop_price : option string) :
  match cli_validate symbol side order_type quantity price tif stop_price with
  | Ok o => consistent_order o
  | Err e =>
      exists m hint,
        e = BadParameter m hint
        /\ In hint ["--symbol"; "--side"; "--type"; "--quantity"; "--price"; "--tif";
                    "--stop-price"]
  end.
Proof.
  destruct (cli_validate symbol side order_type quantity price tif stop_price) eqn:E.
  - eapply cli_validate_consistent_order; eassumption.
  - eapply cli_validate_error; eassumption.
Qed.

Lemma symbol_pattern_upper t : matches_symbol_pattern t = true -> PyStr.upper t = t.
Proof.
  unfold matches_symbol_pattern. intros H.
  apply andb_true_iff in H as [H _]. apply andb_true_iff in H as [H _].
  now apply upper_fixed.
Qed.

(** For a consistent order, the first part of [place_order] raises nothing
    and builds the entries of the order, with the values as validated. *)
Lemma consistent_order_built (o : Order) (w : World) :
  consistent_order o ->
  built_params (o_symbol o) (o_side o) (o_type o) (VFloat (o_quantity o))
    (of_optional (o_price o)) (o_tif o) (of_optional (o_stop_price o)) w
  = Ok (order_entries o).
Proof.
  intros [Hsy [Hsd [_ [_ [_ Hty]]]]].
  rewrite built_params_eq. cbv zeta. unfold base_params, order_entries.
  rewrite (symbol_pattern_upper _ Hsy).
  assert (Hside : PyStr.upper (o_side o) = o_side o).
  { cbn [In valid_sides] in Hsd. destruct Hsd as [<- | [<- | []]]; reflexivity. }
  rewrite Hside.
  destruct Hty as [[Ht [Hp Hs]] | [[Ht [[x [Hp _]] Hs]] | [[Ht [Hp [y [Hs _]]]]
                  | [Ht [[x [Hp _]] [y [Hs _]]]]]]];
    rewrite Ht, Hp, Hs; reflexivity.
Qed.

End OrderValidation.

Section ValidatedOrders.

Variable client : BinanceFuturesClient.

(** X7.  An order accepted by the command-line validation never meets the
    missing-price errors of [place_order]: its entries are built with the
    values as validated, and they go out in exactly one signed POST to
    [/fapi/v1/order]. *)
Theorem validated_order_is_sent_as_validated
    (symbol side order_type quantity : string) (price : option string) (tif : string)
    (stop_price : option string) (o : Order) (w : World) :
  cli_validate symbol side order_type quantity price tif stop_price = Ok o ->
  built_params (o_symbol o) (o_side o) (o_type o) (VFloat (o_quantity o))
    (of_optional (o_price o)) (o_tif o) (of_optional (o_stop_price o)) w
  = Ok (order_entries o)
  /\ wire (snd (place_validated client o w))
     = (wire w ++ [mkRequest POST (base_url client ++ "/fapi/v1/order")
                     (signed (api_secret client) (clock_ms w) (order_entries o)) 10])%list.
Proof.
  intros H. apply cli_validate_consistent_order in H.
  pose proof (consistent_order_built o w H) as Hb.
  split; [exact Hb|].
  pose proof (place_order_run client (o_symbol o) (o_side o) (o_type o)
                (VFloat (o_quantity o)) (of_optional (o_price o)) (o_tif o)
                (of_optional (o_stop_price o)) w) as Hrun.
  rewrite Hb in Hrun. exact Hrun.
Qed.

End ValidatedOrders.

Lemma validated_order_is_sent_as_validated_witness :
  cli_validate "ethusdt" "sell" "stop_limit" "2.5" (Some "3000") "" (Some "2950")
  = Ok (mkOrder "ETHUSDT" "SELL" "STOP_LIMIT" (PyFloat.of_decimal false 25 (-1))
          (Some (PyFloat.of_decimal false 3000 0)) "GTC"
          (Some (PyFloat.of_decimal false 2950 0)))
  /\ built_params "ETHUSDT" "SELL" "STOP_LIMIT" (VFloat (PyFloat.of_decimal false 25 (-1)))
       (VFloat (PyFloat.of_decimal false 3000 0)) "GTC"
       (VFloat (PyFloat.of_decimal false 2950 0)) empty_world
     = Ok [("symbol", VStr "ETHUSDT"); ("side", VStr "SELL"); ("type", VStr "STOP_LIMIT");
           ("quantity", VStr "2.5"); ("price", VStr "3000.0"); ("stopPrice", VStr "2950.0");
           ("timeInForce", VStr "GTC")].
Proof.
  assert (H : cli_validate "ethusdt" "sell" "stop_limit" "2.5" (Some "3000") ""
                (Some "2950")
              = Ok (mkOrder "ETHUSDT" "SELL" "STOP_LIMIT" (PyFloat.of_decimal false 25 (-1))
                      (Some (PyFloat.of_decimal false 3000 0)) "GTC"
                      (Some (PyFloat.of_decimal false 2950 0))))
    by (vm_compute; reflexivity).
  split; [exact H|].
  destruct (validated_order_is_sent_as_validated demo_client _ _ _ _ _ _ _ _ empty_world H)
    as [Hb _].
  cbn [o_symbol o_side o_type o_quantity o_price o_tif o_stop_price of_optional] in Hb.
  rewrite Hb. vm_compute. reflexivity.
Defined.

Section WebValidation.

Lemma float_error_classes (v : value) (e : exn) :
  Py.float v = Err e -> is_ValueError e = true \/ e = TypeError \/ e = OverflowError.
Proof.
  destruct v as [| b | z | x | s | l | d]; cbn [Py.float]; try discriminate;
    try (intros [= <-]; auto).
  - destruct (PyFloat.of_int z); [discriminate|]. intros [= <-]. auto.
  - destruct (PyFloat.of_string s); [discriminate|]. intros [= <-]. auto.
Qed.

Lemma api_stop_price_respond raw ty m s :
  api_stop_price raw ty = Ok (Respond m s) -> s = 400.
Proof.
  unfold api_stop_price.
  destruct (PyStr.mem ty ["STOP_MARKET"; "STOP_LIMIT"]); [|discriminate].
  destruct (is_None raw); [now intros [= _ <-]|].
  destruct (Py.float raw) as [y|e]; cbn [mbind result_bind]; [|discriminate].
  destruct (PyFloat.le_int y 0); [now intros [= _ <-]|discriminate].
Qed.

Lemma api_stop_price_error raw ty e :
  api_stop_price raw ty = Err e ->
  is_ValueError e = true \/ e = TypeError \/ e = OverflowError.
Proof.
  unfold api_stop_price.
  destruct (PyStr.mem ty ["STOP_MARKET"; "STOP_LIMIT"]); [|discriminate].
  destruct (is_None raw); [discriminate|].
  destruct (Py.float raw) as [y|e'] eqn:E; cbn [mbind result_bind].
  - destruct (PyFloat.le_int y 0); discriminate.
  - intros [= <-]. eapply float_error_classes; eassumption.
Qed.

(** The [try] block of [api_place_order] with its two [except] clauses, on
    the raw fields whatever they are. *)
Lemma api_attempt_outcome (rs rsd rt rq : string) (rp : option string) (rtif : string)
    (raw_stop : value) :
  match
    (match
       (symbol ← validate_symbol rs;
        side ← validate_side rsd;
        order_type ← validate_order_type rt;
        qty ← validate_quantity rq;
        parsed_price ← validate_price rp
                         (if String.eqb order_type "STOP_LIMIT" then "LIMIT" else order_type);
        tif ← validate_time_in_force rtif;
        stop ← api_stop_price raw_stop order_type;
        match stop with
        | Respond m s => Ok (Respond m s)
        | Proceed parsed_stop =>
            Ok (Proceed (mkOrder symbol side order_type qty parsed_price tif parsed_stop))
        end)
     with
     | Ok c => Ok c
     | Err e =>
         if is_BadParameter e || is_ValueError e then Ok (Respond (exn_str e) 400)
         else Err e
     end)
  with
  | Ok (Proceed o) => consistent_order o
  | Ok (Respond m s) => s = 400
  | Err e => e = TypeError \/ e = OverflowError
  end.
Proof.
  destruct (validate_symbol rs) as [sy|e] eqn:E1; cbn [mbind result_bind];
    [|apply validate_symbol_error in E1 as [m ->]; reflexivity].
  destruct (validate_side rsd) as [sd|e] eqn:E2; cbn [mbind result_bind];
    [|apply validate_side_error in E2 as [m ->]; reflexivity].
  destruct (validate_order_type rt) as [ot|e] eqn:E3; cbn [mbind result_bind];
    [|apply validate_order_type_error in E3 as [m ->]; reflexivity].
  destruct (validate_quantity rq) as [q|e] eqn:E4; cbn [mbind result_bind];
    [|apply validate_quantity_error in E4 as [m ->]; reflexivity].
  destruct (validate_price rp _) as [pp|e] eqn:E5; cbn [mbind result_bind];
    [|apply validate_price_error in E5 as [m ->]; reflexivity].
  destruct (validate_time_in_force rtif) as [tf|e] eqn:E6; cbn [mbind result_bind];
    [|apply validate_time_in_force_error in E6 as [m ->]; reflexivity].
  destruct (api_stop_price raw_stop ot) as [[ps|m s]|e] eqn:E7; cbn [mbind result_bind].
  - apply validate_quantity_ok in E4 as [_ [Hq1 Hq2]].
    apply (consistent_from_parts sy sd ot q pp tf ps rp);
      eauto using validate_symbol_inv, validate_side_inv, validate_order_type_inv,
        validate_time_in_force_inv.
    apply api_stop_price_inv in E7.
    destruct E7 as [E7 | [Hm [y [_ [-> Hy]]]]]; [auto|eauto].
  - eapply api_stop_price_respond; eassumption.
  - apply api_stop_price_error in E7 as [Hv | [-> | ->]]; [|cbn; auto|cbn; auto].
    rewrite Hv, orb_true_r. reflexivity.
Qed.

Lemma api_validate_object (d : dict) :
  match api_validate (VDict d) with
  | Ok (Proceed o) => consistent_order o
  | Ok (Respond m s) => s = 400
  | Err e => e = TypeError \/ e = OverflowError
  end.
Proof.
  unfold api_validate.
  replace (if Py.truthy (VDict d) then VDict d else VDict []) with (VDict d)
    by (now destruct d).
  cbn [Py.get mbind result_bind fmap result_fmap].
  apply api_attempt_outcome.
Qed.

Lemma api_validate_cases (body : value) :
  match api_validate body with
  | Ok (Proceed o) => consistent_order o
  | Ok (Respond m s) => s = 400
  | Err e => e = AttributeError \/ e = TypeError \/ e = OverflowError
  end.
Proof.
  assert (Hobj : forall d,
             match api_validate (VDict d) with
             | Ok (Proceed o) => consistent_order o
             | Ok (Respond m s) => s = 400
             | Err e => e = AttributeError \/ e = TypeError \/ e = OverflowError
             end).
  { intros d. pose proof (api_validate_object d) as H.
    destruct (api_validate (VDict d)) as [[o|m s]|e]; tauto. }
  assert (Hfalsy : forall v, Py.truthy v = false -> api_validate v = api_validate (VDict [])).
  { intros v Hv. unfold api_validate. rewrite Hv. reflexivity. }
  assert (Hother : forall v, Py.truthy v = true -> (forall d, v <> VDict d) ->
                             api_validate v = Err AttributeError).
  { intros v Hv Hd. unfold api_validate. rewrite Hv.
    destruct v; try reflexivity. now destruct (Hd d). }
  destruct body as [| b | z | x | s | l | d]; try apply Hobj;
    match goal with
    | |- context [api_validate ?v] =>
        destruct (Py.truthy v) eqn:Ht;
        [rewrite (Hother v Ht) by discriminate; auto
        |rewrite (Hfalsy v Ht); apply Hobj]
    end.
Qed.

(** X8.  The validation of [api_place_order] is a gate as well: an order that it
    lets through has fields that fit its type; every refusal has status 400;
    the only exceptions that leave it are the [AttributeError] of a body that
    is JSON but not an object and the [TypeError] or [OverflowError] of
    [float] on a stop price that is neither text nor a number of float
    range, for which no [except] clause stands. *)
Theorem api_validate_is_a_gate (body : value) :
  match api_validate body with
  | Ok (Proceed o) => consistent_order o
  | Ok (Respond m s) => s = 400
  | Err e => e = AttributeError \/ e = TypeError \/ e = OverflowError
  end.
Proof. apply api_validate_cases. Qed.

(** X9.  What the command line accepts, the web view accepts, with the same
    order: when the validation of [place-order] returns an order for its
    arguments, the validation of [api_place_order] returns that order for
    the JSON body that carries the same arguments as text. *)
Theorem web_accepts_what_cli_accepts
    (symbol side order_type quantity : string) (price : option string) (tif : string)
    (stop_price : option string) (o : Order) :
  cli_validate symbol side order_type quantity price tif stop_price = Ok o ->
  api_validate (request_body symbol side order_type quantity price tif stop_price)
  = Ok (Proceed o).
Proof.
  intros H. apply cli_validate_inv in H
    as [sy [sd [ot [q [pp [tf [ps [-> [H1 [H2 [H3 [H4 [H5 [H6 H7]]]]]]]]]]]]]].
  assert (Hempty : PyFloat.of_string "" = None) by (vm_compute; reflexivity).
  assert (Hpr : or_None (match price with Some p => VStr p | None => VNone end)
                = match price with Some p => VStr p | None => VNone end).
  { destruct price as [p|]; [|reflexivity].
    apply validate_price_inv in H5 as [[_ [Hp _]] | [_ [s [x [Hp [Hx _]]]]]];
      [discriminate|].
    injection Hp as <-. unfold or_None. cbn [Py.truthy].
    destruct (String.eqb p "") eqn:E; [|reflexivity].
    apply String.eqb_eq in E. subst p. congruence. }
  assert (Hst : api_stop_price
                  (or_None (match stop_price with Some s => VStr s | None => VNone end)) ot
                = Ok (Proceed ps)).
  { apply validate_stop_price_inv in H7
      as [[Hm ->] | [Hm [s [y [-> [Hy [-> Hle]]]]]]].
    - unfold api_stop_price. now rewrite Hm.
    - unfold or_None. cbn [Py.truthy].
      destruct (String.eqb s "") eqn:E;
        [apply String.eqb_eq in E; subst s; congruence|].
      cbn [negb]. unfold api_stop_price. rewrite Hm. cbn [is_None Py.float].
      rewrite Hy. cbn [mbind result_bind]. now rewrite Hle. }
  unfold api_validate, request_body.
  destruct price as [p|], stop_price as [s|];
    cbn [Py.truthy PyFloat.is_nil app negb Py.get PyDict.get String.eqb Ascii.eqb
         Bool.eqb mbind result_bind fmap result_fmap Py.str is_None] in *;
    try rewrite Hpr in Hst; rewrite ?Hpr; cbn [is_None Py.str];
    rewrite H1, H2, H3, H4; cbn [mbind result_bind];
    rewrite H5, H6; cbn [mbind result_bind];
    rewrite Hst; reflexivity.
Qed.

End WebValidation.

Lemma web_accepts_what_cli_accepts_witness :
  cli_validate "btcusdt" "buy" "limit" "0.01" (Some "50000") "gtc" None
  = Ok (mkOrder "BTCUSDT" "BUY" "LIMIT" float_0_01
          (Some (PyFloat.of_decimal false 50000 0)) "GTC" None)
  /\ api_validate (request_body "btcusdt" "buy" "limit" "0.01" (Some "50000") "gtc" None)
     = Ok (Proceed (mkOrder "BTCUSDT" "BUY" "LIMIT" float_0_01
                      (Some (PyFloat.of_decimal false 50000 0)) "GTC" None)).
Proof.
  assert (H : cli_validate "btcusdt" "buy" "limit" "0.01" (Some "50000") "gtc" None
              = Ok (mkOrder "BTCUSDT" "BUY" "LIMIT" float_0_01
                      (Some (PyFloat.of_decimal false 50000 0)) "GTC" None))
    by (vm_compute; reflexivity).
  split; [exact H|].
  exact (web_accepts_what_cli_accepts _ _ _ _ _ _ _ _ H).
Defined.

(* ===================================================================== *)
(** * One request per call *)
(* ===================================================================== *)

Section SingleAttempt.

Variable self : BinanceFuturesClient.




End SingleAttempt.

(* ===================================================================== *)
(** * Query and cancellation of an order *)
(* ===================================================================== *)

Section OrderLookup.

Variable client : BinanceFuturesClient.





End OrderLookup.

(* ===================================================================== *)
(** * The update time of an order *)
(* ===================================================================== *)

Section UpdateTimeText.

Variable utc_time_string : spec_float -> result string.

Lemma get_default (d : dict) (k : string) (v : value) :
  match PyDict.get d k with Some x => x | None => v end = default v (PyDict.get d k).
Proof. now destruct (PyDict.get d k). Qed.

Lemma add_update_time_human_dict (d : dict) :
  add_update_time_human utc_time_string (VDict d)
  = Ok (VDict (PyDict.set d "updateTimeHuman"
                 (VStr (time_or_raw utc_time_string (update_time d))))).
Proof.
  unfold add_update_time_human, time_or_raw, update_time.
  cbn [Py.get mbind result_bind]. rewrite get_default.
  now destruct (time_string utc_time_string _).
Qed.

(** X12.  The web view never fails on the update time of an order that is an
    object: whatever the time is (a number, text, null, or absent, read as
    0) and whatever the conversion raises, the order comes back with
    [updateTimeHuman] set to the UTC text or else to the raw value, and with
    every other field as it was. *)
Theorem web_update_time_total (d : dict) :
  exists d',
    add_update_time_human utc_time_string (VDict d) = Ok (VDict d')
    /\ PyDict.get d' "updateTimeHuman"
       = Some (VStr (time_or_raw utc_time_string (update_time d)))
    /\ (forall k, k <> "updateTimeHuman" -> PyDict.get d' k = PyDict.get d k)
    /\ (forall e, time_string utc_time_string (update_time d) = Err e ->
                  PyDict.get d' "updateTimeHuman" = Some (VStr (Py.str (update_time d)))).
Proof.
  eexists. split; [apply add_update_time_human_dict|].
  split; [apply dict_get_set_eq|]. split.
  - intros k Hk. now apply dict_get_set_ne.
  - intros e He. rewrite dict_get_set_eq. unfold time_or_raw. now rewrite He.
Qed.

Lemma time_string_number_errors (ms : value) (e : exn) :
  (forall t e, utc_time_string t = Err e -> conversion_errors e = true) ->
  is_number ms = true ->
  time_string utc_time_string ms = Err e -> conversion_errors e = true.
Proof.
  intros Hlib Hms E. unfold time_string, Py.truediv_int in E.
  destruct ms; try discriminate Hms.
  - destruct (PyFloat.int_truediv _ 1000); cbn [mbind result_bind] in E;
      [eapply Hlib; eassumption|now injection E as <-].
  - destruct (PyFloat.int_truediv z 1000); cbn [mbind result_bind] in E;
      [eapply Hlib; eassumption|now injection E as <-].
  - cbn [mbind result_bind] in E. eapply Hlib; eassumption.
Qed.

(** X13.  When the update time of an order is a number (or absent) and the time
    conversion raises nothing but [OSError], [OverflowError] or [ValueError],
    [format_order_result] returns the summary of the order: each field as
    [str] shows it, [N/A] for a missing one, and on the time line the UTC
    text, or the raw value when the conversion raised. *)
Theorem format_order_result_summary (d : dict) :
  (forall t e, utc_time_string t = Err e -> conversion_errors e = true) ->
  is_number (update_time d) = true ->
  format_order_result utc_time_string (VDict d)
  = Ok (summary d (time_or_raw utc_time_string (update_time d))).
Proof.
  intros Hlib Hnum. unfold format_order_result, summary, shown, time_or_raw.
  cbn [Py.get mbind result_bind]. rewrite !get_default. fold (update_time d).
  destruct (time_string utc_time_string (update_time d)) as [s|e] eqn:E;
    cbn [try_except].
  - reflexivity.
  - rewrite (time_string_number_errors _ _ Hlib Hnum E). reflexivity.
Qed.

End UpdateTimeText.

Lemma format_order_result_summary_witness :
  format_order_result epoch_only (VDict [("orderId", VInt 7); ("updateTime", VInt 0)])
  = Ok (summary [("orderId", VInt 7); ("updateTime", VInt 0)] "1970-01-01 00:00:00 UTC")
  /\ format_order_result epoch_only (VDict [("orderId", VInt 7); ("updateTime", VInt 5)])
     = Ok (summary [("orderId", VInt 7); ("updateTime", VInt 5)] "5").
Proof.
  assert (Hlib : forall t e, epoch_only t = Err e -> conversion_errors e = true).
  { intros t e. destruct t; cbn [epoch_only]; try discriminate; now intros [= <-]. }
  split.
  - exact (format_order_result_summary epoch_only
             [("orderId", VInt 7); ("updateTime", VInt 0)] Hlib eq_refl).
  - exact (format_order_result_summary epoch_only
             [("orderId", VInt 7); ("updateTime", VInt 5)] Hlib eq_refl).
Defined.

(* ===================================================================== *)
(** * The constructor of the client *)
(* ===================================================================== *)

Section ConstructorOutcome.

Variable environ : string -> option string.
Variable new_session : Request -> result Response.
Variable _LOG_FILE : string.
Variable library_message : exn -> string.

Lemma eqb_empty (s : string) : String.eqb s "" = false -> s <> "".
Proof. intros H ->. discriminate H. Qed.

Lemma get_logger_cases (name : string) (fs_ok : bool) (st : Logging) :
  (get_logger _LOG_FILE name fs_ok st = (Err OSError, st)
   /\ _configured st = false /\ fs_ok = false)
  \/ (exists st', get_logger _LOG_FILE name fs_ok st = (Ok name, st')
                  /\ _configured st' = true
                  /\ (_configured st = true \/ fs_ok = true)).
Proof.
  unfold get_logger, _configure_root_logger.
  destruct (_configured st) eqn:Hc; [right; eauto|].
  destruct fs_ok; cbn [negb]; [right; eauto|left; auto].
Qed.

(** X14.  The constructor returns a client exactly when [BINANCE_API_KEY] and
    [BINANCE_API_SECRET] are both set to a non-empty text (a variable that is
    not set counts as empty) and [get_logger] returns, that is, the root
    logger is configured already or the log file can be set up: the client
    then holds these two values, the testnet URL and the new session, and
    the root logger is configured from then on.  Otherwise
    [EnvironmentError] is raised: about the key when the key is missing,
    about the secret only when the key is there, both before the logging
    module is touched, and as the [OSError] of the log file only when both
    are there. *)
Theorem init_needs_both_credentials (fs_ok : bool) (st : Logging) :
  match __init__ environ new_session _LOG_FILE library_message fs_ok st with
  | (Configured c, st') =>
      api_key c = getenv environ "BINANCE_API_KEY" /\ api_key c <> ""
      /\ api_secret c = getenv environ "BINANCE_API_SECRET" /\ api_secret c <> ""
      /\ base_url c = "https://testnet.binancefuture.com"
      /\ session c = new_session
      /\ (_configured st = true \/ fs_ok = true)
      /\ _configured st' = true
  | (EnvironmentError m, st') =>
      st' = st
      /\ ((getenv environ "BINANCE_API_KEY" = ""
           /\ String.prefix "BINANCE_API_KEY is not set." m = true)
          \/ (getenv environ "BINANCE_API_KEY" <> ""
              /\ getenv environ "BINANCE_API_SECRET" = ""
              /\ String.prefix "BINANCE_API_SECRET is not set." m = true)
          \/ (getenv environ "BINANCE_API_KEY" <> ""
              /\ getenv environ "BINANCE_API_SECRET" <> ""
              /\ _configured st = false /\ fs_ok = false
              /\ m = library_message OSError))
  end.
Proof.
  unfold __init__.
  destruct (String.eqb (getenv environ "BINANCE_API_KEY") "") eqn:Hk.
  - split; [reflexivity|]. left. split; [now apply String.eqb_eq|reflexivity].
  - destruct (String.eqb (getenv environ "BINANCE_API_SECRET") "") eqn:Hs.
    + split; [reflexivity|]. right. left.
      split; [now apply eqb_empty|]. split; [now apply String.eqb_eq|reflexivity].
    + apply eqb_empty in Hk, Hs.
      destruct (get_logger_cases "BinanceFuturesClient" fs_ok st)
        as [[-> [Hc Hf]] | [st' [-> [Hc' Hor]]]].
      * split; [reflexivity|]. right. right. auto 10.
      * cbn [api_key api_secret base_url session]. auto 10.
Qed.

End ConstructorOutcome.

(* ===================================================================== *)
(** * The views of the web front end *)
(* ===================================================================== *)

Section ViewOutcomes.

Variable environ : string -> option string.
Variable new_session : Request -> result Response.
Variable utc_time_string : spec_float -> result string.
Variable library_message : exn -> string.
Variable _LOG_FILE : string.
Variable json_error_is_request_exception : bool.

Lemma view_except_status (e : exn) :
  view_status (view_except library_message json_error_is_request_exception e) = 503
  \/ view_status (view_except library_message json_error_is_request_exception e) = 500.
Proof.
  unfold view_except, is_EnvironmentError.
  destruct json_error_is_request_exception, e;
    cbn [is_OSError is_HTTPError is_JSONDecodeError orb andb];
    first [left; reflexivity | right; reflexivity].
Qed.

Lemma bind_lift_snd {A B} (c : M A) (k : A -> M B) (w : World) :
  (forall a w', snd (k a w') = w') ->
  snd ((x ← c; k x) w) = snd (c w).
Proof.
  intros Hk. unfold mbind, M_bind. destruct (c w) as [[a|e] w']; [apply Hk|reflexivity].
Qed.

Lemma get_account_balance_wire (client : BinanceFuturesClient) (w : World) :
  wire (snd (get_account_balance client w))
  = (wire w ++ [mkRequest GET (base_url client ++ "/fapi/v2/account")
                  (signed (api_secret client) (clock_ms w) []) 10])%list.
Proof.
  unfold get_account_balance. rewrite bind_lift_snd.
  - change (get client "/fapi/v2/account" None true w)
      with (executor client GET "/fapi/v2/account" None true w).
    rewrite executor_none.
    rewrite (executor_wire client GET "/fapi/v2/account" _ true _ []); [reflexivity|].
    cbn [heap set_heap]. rewrite lookup_app_r by reflexivity. now rewrite Nat.sub_diag.
  - intros data w'. unfold mbind, M_bind, lift.
    destruct (Py.get data "assets" (VList [])); [|reflexivity].
    destruct (Py.iter _); reflexivity.
Qed.

Lemma place_validated_wire (client : BinanceFuturesClient) (o : Order) (w : World) :
  consistent_order o ->
  wire (snd (place_validated client o w))
  = (wire w ++ [mkRequest POST (base_url client ++ "/fapi/v1/order")
                  (signed (api_secret client) (clock_ms w) (order_entries o)) 10])%list.
Proof.
  intros H.
  pose proof (place_order_run client (o_symbol o) (o_side o) (o_type o)
                (VFloat (o_quantity o)) (of_optional (o_price o)) (o_tif o)
                (of_optional (o_stop_price o)) w) as Hrun.
  rewrite (consistent_order_built o w H) in Hrun. exact Hrun.
Qed.

(** X15.  [api_balance] answers with status 200, 503 or 500 and never with 502:
    the [HTTPError] of a rejected request is an [EnvironmentError], so the
    first [except] clause takes it.  When the constructor raises, the answer
    is 503 with its message and nothing is sent; when it returns a client,
    exactly one signed GET goes to [/fapi/v2/account], the kept balances come
    back under status 200 and an [HTTPError] comes back as 503 with its
    message. *)
Theorem api_balance_outcomes (fs_ok : bool) (st : Logging) (w : World) :
  let out :=
    api_balance environ new_session library_message _LOG_FILE
      json_error_is_request_exception fs_ok st w in
  (view_status (fst out) = 200 \/ view_status (fst out) = 503
   \/ view_status (fst out) = 500)
  /\ (forall m,
        fst (__init__ environ new_session _LOG_FILE library_message fs_ok st)
        = EnvironmentError m ->
        out = (_error m 503, w))
  /\ (forall client,
        fst (__init__ environ new_session _LOG_FILE library_message fs_ok st)
        = Configured client ->
        wire (snd out)
        = (wire w ++ [mkRequest GET (base_url client ++ "/fapi/v2/account")
                        (signed (api_secret client) (clock_ms w) []) 10])%list
        /\ (forall kept, fst (get_account_balance client w) = Ok kept ->
              fst out
              = mkView (VDict [("success", VBool true); ("balances", VList kept)]) 200)
        /\ (forall m r, fst (get_account_balance client w) = Err (HTTPError m r) ->
              fst out = _error m 503)).
Proof.
  cbv zeta. unfold api_balance, _get_client.
  destruct (fst (__init__ environ new_session _LOG_FILE library_message fs_ok st))
    as [c|m0] eqn:Hi.
  - pose proof (get_account_balance_wire c w) as Hw.
    destruct (get_account_balance c w) as [[kept|e] w'] eqn:Hg; cbn [fst snd] in *.
    + split; [auto|]. split; [discriminate|].
      intros client [= <-]. rewrite Hg. cbn [fst]. split; [exact Hw|].
      split; [now intros kept' [= <-]|discriminate].
    + split; [destruct (view_except_status e); auto|]. split; [discriminate|].
      intros client [= <-]. rewrite Hg. cbn [fst]. split; [exact Hw|].
      split; [discriminate|now intros m r [= ->]].
  - cbn [fst snd]. split; [auto|]. split; [now intros m [= <-]|discriminate].
Qed.

(** X16.  [api_place_order] answers with status 200, 400, 503 or 500 and never
    with 502.  An answer of 400, and an exception that leaves the view, come
    from the validation and leave the world as it was: a refused order never
    reaches the exchange.  Whatever the answer, at most one request has been
    sent, by a client that the constructor returned, and it is the signed
    POST of the entries of the validated order.  An answer of 200 carries the
    order with its [updateTimeHuman]. *)
Theorem api_place_order_outcomes (fs_ok : bool) (st : Logging) (body : value)
    (w : World) :
  let out :=
    api_place_order environ new_session utc_time_string library_message _LOG_FILE
      json_error_is_request_exception fs_ok st body w in
  (forall r, fst out = Ok r ->
     view_status r = 200 \/ view_status r = 400 \/ view_status r = 503
     \/ view_status r = 500)
  /\ (forall r, fst out = Ok r -> view_status r = 400 -> snd out = w)
  /\ (forall e, fst out = Err e ->
        snd out = w /\ (e = AttributeError \/ e = TypeError \/ e = OverflowError))
  /\ (snd out = w
      \/ exists o client,
           api_validate body = Ok (Proceed o)
           /\ consistent_order o
           /\ fst (__init__ environ new_session _LOG_FILE library_message fs_ok st)
              = Configured client
           /\ wire (snd out)
              = (wire w ++ [mkRequest POST (base_url client ++ "/fapi/v1/order")
                              (signed (api_secret client) (clock_ms w) (order_entries o))
                              10])%list)
  /\ (forall r, fst out = Ok r -> view_status r = 200 ->
        exists d human,
          view_body r = VDict [("success", VBool true); ("order", VDict d)]
          /\ PyDict.get d "updateTimeHuman" = Some (VStr human)).
Proof.
  cbv zeta. unfold api_place_order, _get_client.
  pose proof (api_validate_cases body) as Hv.
  destruct (api_validate body) as [[o|m s]|e].
  - destruct (fst (__init__ environ new_session _LOG_FILE library_message fs_ok st))
      as [c|m0] eqn:Hi.
    + pose proof (place_validated_wire c o w Hv) as Hw.
      destruct (place_validated c o w) as [[order|e] w'] eqn:Hp; cbn [fst snd] in *.
      * destruct (add_update_time_human utc_time_string order) as [order'|e] eqn:Ht;
          cbn [fst snd].
        -- split; [intros r [= <-]; auto|].
           split; [intros r [= <-]; discriminate|]. split; [discriminate|].
           split; [right; exists o, c; auto|].
           intros r [= <-] _. cbn [view_body].
           destruct order as [| | | | | |d]; try discriminate Ht.
           rewrite add_update_time_human_dict in Ht. injection Ht as <-.
           eexists _, _. split; [reflexivity|apply dict_get_set_eq].
        -- split; [intros r [= <-]; destruct (view_except_status e) as [-> | ->]; auto|].
           split; [intros r [= <-]; destruct (view_except_status e) as [-> | ->];
                   discriminate|].
           split; [discriminate|]. split; [right; exists o, c; auto|].
           intros r [= <-]; destruct (view_except_status e) as [-> | ->]; discriminate.
      * split; [intros r [= <-]; destruct (view_except_status e) as [-> | ->]; auto|].
        split; [intros r [= <-]; destruct (view_except_status e) as [-> | ->];
                discriminate|].
        split; [discriminate|]. split; [right; exists o, c; auto|].
        intros r [= <-]; destruct (view_except_status e) as [-> | ->]; discriminate.
    + cbn [fst snd]. split; [intros r [= <-]; auto|].
      split; [intros r [= <-]; discriminate|]. split; [discriminate|].
      split; [auto|]. intros r [= <-]; discriminate.
  - cbn [fst snd]. subst s. split; [intros r [= <-]; auto|].
    split; [auto|]. split; [discriminate|]. split; [auto|].
    intros r [= <-]; discriminate.
  - cbn [fst snd]. split; [discriminate|]. split; [discriminate|].
    split; [intros e' [= <-]; auto|]. split; [auto|]. discriminate.
Qed.

End ViewOutcomes.

(* ===================================================================== *)
(** * The configuration of the root logger *)
(* ===================================================================== *)

Section LoggerOnce.

Variable _LOG_FILE : string.

(** X17.  Whatever the number of calls of [get_logger] and whichever of them find
    the log file unusable, the root logger is configured by the first call
    that succeeds and by no other: when the root logger is configured at the
    start, or no call succeeds, nothing changes; otherwise the level is DEBUG
    and the file handler and the stream handler are added once, after the
    handlers that were there.  A call on a configured root logger returns
    the logger and does not depend on the file system. *)
Theorem get_logger_configures_once (calls : list (string * bool)) (st : Logging) :
  get_logger_calls _LOG_FILE calls st
  = (if _configured st || negb (existsb snd calls) then st
     else mkLogging true DEBUG
            (root_handlers st ++ [file_handler _LOG_FILE; stream_handler])%list)
  /\ (forall name fs_ok,
        _configured (get_logger_calls _LOG_FILE calls st) = true ->
        get_logger _LOG_FILE name fs_ok (get_logger_calls _LOG_FILE calls st)
        = (Ok name, get_logger_calls _LOG_FILE calls st)).
Proof.
  split.
  - revert st. induction calls as [|[name ok] rest IH]; intros st.
    + cbn. now rewrite orb_true_r.
    + cbn [get_logger_calls existsb snd]. rewrite IH.
      unfold get_logger, _configure_root_logger.
      destruct (_configured st) eqn:Hc; cbn [snd orb].
      * now rewrite Hc.
      * destruct ok; cbn [negb snd _configured orb]; [reflexivity|now rewrite Hc].
  - intros name fs_ok H. unfold get_logger, _configure_root_logger. now rewrite H.
Qed.

End LoggerOnce.

(* ===================================================================== *)
(** * Outcomes of the response handler and of the numeric validators *)
(* ===================================================================== *)

Section Outcomes.

Lemma nan_or_not (x : spec_float) : x = S754_nan \/ x <> S754_nan.
Proof. destruct x; first [left; reflexivity | right; discriminate]. Qed.

(** X18.  The outcomes of [_handle_response], all of them.  It returns the decoded
    body exactly for status 200 with a JSON body, and raises the error of
    [response.json()] for status 200 without one.  For any other status it
    raises [HTTPError] carrying the response, with the message built from the
    status, the [code] and the [msg] of an object body ([N/A] and the text of
    the response where they are missing or the body is not JSON), except for
    a JSON body that is not an object, where [AttributeError] leaves it. *)
Theorem handle_response_outcomes (response : Response) :
  match _handle_response response with
  | Ok body => status_code response = 200 /\ json response = Some body
  | Err JSONDecodeError => status_code response = 200 /\ json response = None
  | Err (HTTPError m r) =>
      status_code response <> 200 /\ r = response
      /\ exists code msg,
           m = api_error_message (status_code response) code msg
           /\ match json response with
              | None => code = VStr "N/A" /\ msg = VStr (text response)
              | Some (VDict fields) =>
                  code = default (VStr "N/A") (PyDict.get fields "code")
                  /\ msg = default (VStr (text response)) (PyDict.get fields "msg")
              | Some _ => False
              end
  | Err AttributeError =>
      status_code response <> 200
      /\ exists body, json response = Some body /\ forall fields, body <> VDict fields
  | Err _ => False
  end.
Proof.
  unfold _handle_response, response_json.
  destruct (status_code response =? 200) eqn:Hs; cbn [negb].
  - apply Z.eqb_eq in Hs. destruct (json response); auto.
  - apply Z.eqb_neq in Hs.
    destruct (json response) as [body|]; cbn [mbind result_bind try_except is_ValueError].
    + destruct body as [| b | z | x | t | l | fields];
        cbn [Py.get mbind result_bind try_except is_ValueError].
      1-6: split; [exact Hs|]; eexists; split; [reflexivity|]; intros fields; discriminate.
      rewrite !get_default.
      cbn [mbind result_bind mret result_ret try_except].
      split; [exact Hs|]. split; [reflexivity|]. eexists _, _. split; [reflexivity|auto].
    + cbn [mret result_ret mbind result_bind].
      split; [exact Hs|]. split; [reflexivity|]. eexists _, _. split; [reflexivity|auto].
Qed.

(** X19.  [get_account_balance] sends exactly one request, the signed GET of
    [/fapi/v2/account] without parameters of the caller, and whenever it
    returns, the result is the entries of [assets] whose wallet balance is
    read as a float above 0, in their order; every entry was then an object
    with a readable balance. *)
Theorem account_balance_outcome (self : BinanceFuturesClient) (w : World) :
  wire (snd (get_account_balance self w))
  = (wire w ++ [mkRequest GET (base_url self ++ "/fapi/v2/account")
                  (signed (api_secret self) (clock_ms w) []) 10])%list
  /\ match fst (get_account_balance self w) with
     | Ok kept =>
         exists data entries,
           fst (get self "/fapi/v2/account" None true w) = Ok data
           /\ (assets ← Py.get data "assets" (VList []); Py.iter assets) = Ok entries
           /\ Forall balance_entry entries
           /\ kept = List.filter has_positive_balance entries
     | Err _ => True
     end.
Proof.
  split; [apply get_account_balance_wire|].
  destruct (fst (get_account_balance self w)) as [kept|e] eqn:H; [|exact I].
  exact (account_balance_sound self w kept H).
Qed.

(** X20.  [validate_quantity] returns the float that [float] reads from the text,
    and only when it lies in the range from above 0 to 1,000,000 or is NaN,
    which passes both guards; every other text, unreadable or out of range,
    is refused with a [BadParameter] that names the quantity option. *)
Theorem validate_quantity_outcome (s : string) :
  match validate_quantity s with
  | Ok q =>
      PyFloat.of_string s = Some q /\ (in_quantity_range q = true \/ q = S754_nan)
  | Err e =>
      (exists m, e = BadParameter m "--quantity")
      /\ forall q, PyFloat.of_string s = Some q ->
                   in_quantity_range q = false /\ q <> S754_nan
  end.
Proof.
  destruct (validate_quantity s) as [q|e] eqn:H.
  - pose proof (proj1 (validate_quantity_ok s q) H) as [Hp _]. split; [exact Hp|].
    destruct (nan_or_not q) as [Hn|Hn]; [auto|]. left.
    exact (proj2 (proj1 (validate_quantity_range s q Hn) H)).
  - split; [eapply validate_quantity_error; eassumption|]. intros q Hq.
    assert (Hn : q <> S754_nan).
    { intros ->.
      assert (Hok : validate_quantity s = Ok S754_nan)
        by (apply validate_quantity_ok; split; [exact Hq|split; reflexivity]).
      rewrite H in Hok. discriminate Hok. }
    split; [|exact Hn].
    destruct (in_quantity_range q) eqn:Hr; [|reflexivity].
    rewrite (proj2 (validate_quantity_range s q Hn) (conj Hq Hr)) in H. discriminate H.
Qed.

(** X21.  [validate_price] returns no price exactly for MARKET and STOP_MARKET
    without a price, and for every other order type only the float read from
    a price that is present and has passed the guard [<= 0]; every refusal is
    a [BadParameter] that names the price option. *)
Theorem validate_price_outcome (price : option string) (order_type : string) :
  match validate_price price order_type with
  | Ok None => PyStr.mem order_type ["MARKET"; "STOP_MARKET"] = true /\ price = None
  | Ok (Some x) =>
      PyStr.mem order_type ["MARKET"; "STOP_MARKET"] = false
      /\ exists s, price = Some s /\ PyFloat.of_string s = Some x
                   /\ PyFloat.le_int x 0 = false
  | Err e => exists m, e = BadParameter m "--price"
  end.
Proof.
  destruct (validate_price price order_type) as [pp|e] eqn:H.
  - apply validate_price_inv in H
      as [[Hm [Hp ->]] | [Hm [s [x [Hp [Hs [-> Hx]]]]]]]; eauto.
  - eapply validate_price_error; eassumption.
Qed.


End Outcomes.

(* ===================================================================== *)
(** * The commands of the command line *)
(* ===================================================================== *)

Section CommandOutcomes.

Variable environ : string -> option string.
Variable new_session : Request -> result Response.
Variable utc_time_string : spec_float -> result string.
Variable library_message : exn -> string.
Variable _LOG_FILE : string.





End CommandOutcomes.

(* ===================================================================== *)
(** * Order types without price fields *)
(* ===================================================================== *)

Section OtherOrderTypes.

Variable client : BinanceFuturesClient.


End OtherOrderTypes.


(* ===================================================================== *)
(** * The request and the result of the exchange information *)
(* ===================================================================== *)

Section ExchangeInfoOutcome.

Variable self : BinanceFuturesClient.

Lemma scan_symbols_sound (entries : list value) (target : string) (entry : value) :
  scan_symbols entries target = Ok (Some entry) ->
  In entry entries /\ symbol_is target entry = true.
Proof.
  induction entries as [|e rest IH]; cbn [scan_symbols]; [discriminate|].
  destruct e as [| b | z | x | s | l | d]; cbn [Py.get mbind result_bind]; try discriminate.
  destruct (Py.eq_str (match PyDict.get d "symbol" with Some v => v | None => VNone end)
              target) eqn:E.
  - intros [= <-]. split; [now left|].
    cbn [symbol_is]. destruct (PyDict.get d "symbol"); [exact E|discriminate E].
  - intros H. destruct (IH H) as [Hin Hs]. split; [now right|exact Hs].
Qed.

(** X26.  [get_exchange_info] sends exactly one request, the GET of
    [/fapi/v1/exchangeInfo], unsigned and without any parameter: neither the
    symbol nor a timestamp or signature goes out.  Whenever it returns, the
    result is one of the entries of [symbols] in the answer, and the
    [symbol] of that entry equals the upper-cased query. *)
Theorem exchange_info_outcome (symbol : string) (w : World) :
  wire (snd (get_exchange_info self symbol w))
  = (wire w ++ [mkRequest GET (base_url self ++ "/fapi/v1/exchangeInfo") [] 10])%list
  /\ match fst (get_exchange_info self symbol w) with
     | Ok entry =>
         exists data entries,
           fst (get self "/fapi/v1/exchangeInfo" None false w) = Ok data
           /\ (symbols ← Py.get data "symbols" (VList []); Py.iter symbols) = Ok entries
           /\ In entry entries
           /\ symbol_is (PyStr.upper symbol) entry = true
     | Err _ => True
     end.
Proof.
  split.
  - unfold get_exchange_info. rewrite bind_lift_snd.
    + change (get self "/fapi/v1/exchangeInfo" None false w)
        with (executor self GET "/fapi/v1/exchangeInfo" None false w).
      rewrite executor_none.
      rewrite (executor_wire self GET "/fapi/v1/exchangeInfo" _ false _ []); [reflexivity|].
      cbn [heap set_heap]. rewrite lookup_app_r by reflexivity. now rewrite Nat.sub_diag.
    + intros data w'. unfold mbind, M_bind, lift, raise, mret, M_ret.
      destruct (Py.get data "symbols" (VList [])); [|reflexivity].
      destruct (Py.iter _); [|reflexivity].
      destruct (scan_symbols _ _) as [[found|]|]; reflexivity.
  - unfold get_exchange_info. unfold mbind at 1. unfold M_bind.
    destruct (get self "/fapi/v1/exchangeInfo" None false w) as [[data|e] w']; [|exact I].
    unfold mbind, M_bind, result_bind, lift, raise, mret, M_ret.
    destruct (Py.get data "symbols" (VList [])) as [symbols|e] eqn:Es; [|exact I].
    destruct (Py.iter symbols) as [entries|e] eqn:Ei; [|exact I].
    destruct (scan_symbols entries (PyStr.upper symbol)) as [[found|]|e] eqn:Ef;
      cbn [fst]; try exact I.
    destruct (scan_symbols_sound _ _ _ Ef) as [Hin Hs].
    exists data, entries. rewrite Es. auto.
Qed.

End ExchangeInfoOutcome.
